(** * fundamentalistapro: the extraction, valuation and recommendation core

    A shallow embedding of [HybridStockAnalyzer] (src/analyzer.py):
    [clean_value], [_extract_table_data], [extract_financial_data],
    [calculate_fair_price] and [generate_investment_analysis].

    Numbers are IEEE 754 binary64 values, as Python's [float]: the kernel's
    primitive floats, whose operations round to nearest-even exactly as the
    interpreter's do.  Text is a [string] holding the UTF-8 bytes of the
    Python [str]; equality, search for ASCII patterns and replacement of
    ASCII patterns agree on both views.  Dictionaries are [gmap]s keyed by
    text.  Exceptions are values of [result]. *)

From Stdlib Require Import ZArith QArith Floats Bool List String Ascii Lia.
From Stdlib Require Uint63.
From Stdlib Require Import DecimalString.
From stdpp Require Import base option gmap strings list.

Set Warnings "-inexact-float,-register-all".
Local Open Scope Z_scope.

(** ** Exceptions *)

Inductive exn := ValueError | ZeroDivisionError | TypeError | KeyError.

Inductive result (A : Type) : Type :=
  | Ok (a : A)
  | Raise (e : exn).
Arguments Ok {A} a.
Arguments Raise {A} e.

#[global] Instance result_ret : MRet result := @Ok.
#[global] Instance result_bind : MBind result :=
  fun A B f m => match m with Ok a => f a | Raise e => Raise e end.

#[global] Instance exn_eq_dec : EqDecision exn.
Proof. solve_decision. Defined.

(** [try: c  except e: h] *)
Definition try_except {A} (c : result A) (e : exn) (h : result A) : result A :=
  match c with
  | Ok a => Ok a
  | Raise e' => if decide (e' = e) then h else Raise e'
  end.

(** ** Python floats *)

Module PyFloat.

(** The nearest integer to [num / den], ties to the even one
    ([0 <= num], [0 < den]). *)
Definition Zround_half_even (num den : Z) : Z :=
  let q := num / den in
  match (2 * (num mod den)) ?= den with
  | Lt => q
  | Gt => q + 1
  | Eq => if Z.even q then q else q + 1
  end.

(** [m * 2^e * 100] rounded to an integer: the digits [dtoa] produces in
    mode 3 with two decimals. *)
Definition hundredths (m : positive) (e : Z) : Z :=
  if 0 <=? e then Zpos m * 2 ^ e * 100
  else Zround_half_even (Zpos m * 100) (2 ^ (- e)).

(** The binary64 value nearest to [(-1)^s * n / d], as [strtod] returns it. *)
Definition SF_of_ratio (s : bool) (n d : positive) : spec_float :=
  SFdiv prec emax (S754_finite s n 0) (S754_finite false d 0).

Definition of_ratio (s : bool) (n : N) (d : positive) : float :=
  match n with
  | N0 => if s then PrimFloat.neg_zero else PrimFloat.zero
  | Npos p => SF2Prim (SF_of_ratio s p d)
  end.

(** [round(x, 2)]: infinities and NaN round to themselves; a finite [x]
    is printed with two decimals, correctly rounded, and read back. *)
Definition round2 (x : float) : float :=
  match Prim2SF x with
  | S754_finite s m e => of_ratio s (Z.to_N (hundredths m e)) 100
  | _ => x
  end.

(** [max(a, b)] and [min(a, b)] keep the first argument unless the second
    is strictly greater (smaller). *)
Definition max (a b : float) : float := if (a <? b)%float then b else a.
Definition min (a b : float) : float := if (b <? a)%float then b else a.

(** [math.sqrt]: a negative argument is a domain error. *)
Definition sqrt (x : float) : result float :=
  if (x <? 0)%float then Raise ValueError else Ok (PrimFloat.sqrt x).

(** [a / b] *)
Definition truediv (a b : float) : result float :=
  if (b =? 0)%float then Raise ZeroDivisionError else Ok (a / b)%float.

(** Truth value of a float: anything but zero. *)
Definition truthy (x : float) : bool := negb (x =? 0)%float.

(** The float of a (small) Python integer. *)
Definition of_int (z : Z) : float := of_ratio (z <? 0) (Z.abs_N z) 1.

Definition decimal (n : N) : string := NilZero.string_of_uint (N.to_uint n).

(** [f"{x:.2f}"] *)
Definition format_f2 (x : float) : string :=
  match Prim2SF x with
  | S754_nan => "nan"
  | S754_infinity s => if s then "-inf" else "inf"
  | S754_zero s => (if s then "-" else "") +:+ "0.00"
  | S754_finite s m e =>
      let n := Z.to_N (hundredths m e) in
      (if s then "-" else "") +:+ decimal (n / 100) +:+ "."
        +:+ (if (n mod 100 <? 10)%N then "0" else "") +:+ decimal (n mod 100)
  end%string.

(** [f"{x:.2%}"]: the value times 100, two decimals, a percent sign. *)
Definition format_pct2 (x : float) : string :=
  (format_f2 (x * 100)%float +:+ "%")%string.

(** [sum(xs)], accumulated from the left starting at 0, one rounded
    addition for each element. *)
Definition sum (xs : list float) : float :=
  fold_left PrimFloat.add xs 0%float.

End PyFloat.

(** ** Python text *)

Module PyStr.

Definition code (c : ascii) : N := N_of_ascii c.

Definition is_space (c : ascii) : bool :=
  let n := code c in
  ((9 <=? n) && (n <=? 13) || (28 <=? n) && (n <=? 32))%N.

Definition is_digit (c : ascii) : bool :=
  let n := code c in ((48 <=? n) && (n <=? 57))%N.

Fixpoint lstrip (s : string) : string :=
  match s with
  | String c r => if is_space c then lstrip r else s
  | EmptyString => s
  end.

Fixpoint rstrip (s : string) : string :=
  match s with
  | String c r =>
      match rstrip r with
      | EmptyString => if is_space c then EmptyString else String c EmptyString
      | r' => String c r'
      end
  | EmptyString => s
  end.

(** [s.strip()] *)
Definition strip (s : string) : string := rstrip (lstrip s).

(** [sub in s] *)
Fixpoint contains (sub s : string) : bool :=
  String.prefix sub s ||
  match s with
  | String _ r => contains sub r
  | EmptyString => false
  end.

(** [s.replace(old, new)] for a non-empty [old]: occurrences are taken
    from the left and do not overlap; [skip] counts the characters of the
    current occurrence still to drop. *)
Fixpoint replace_from (old new : string) (skip : nat) (s : string) : string :=
  match s with
  | EmptyString => EmptyString
  | String c r =>
      match skip with
      | S k => replace_from old new k r
      | O =>
          if String.prefix old s
          then new +:+ replace_from old new (Nat.pred (String.length old)) r
          else String c (replace_from old new O r)
      end
  end.
Definition replace (old new s : string) : string := replace_from old new O s.

Fixpoint filter (keep : ascii -> bool) (s : string) : string :=
  match s with
  | EmptyString => EmptyString
  | String c r => if keep c then String c (filter keep r) else filter keep r
  end.

Fixpoint forallb (p : ascii -> bool) (s : string) : bool :=
  match s with
  | EmptyString => true
  | String c r => p c && forallb p r
  end.

(** [re.sub(r'[^\d\.\-]', '', s)] *)
Definition keep_numeric (c : ascii) : bool :=
  is_digit c || Ascii.eqb c "."%char || Ascii.eqb c "-"%char.

(** The text before and after the first ['.']. *)
Fixpoint split_dot (s : string) : string * option string :=
  match s with
  | EmptyString => (EmptyString, None)
  | String c r =>
      if Ascii.eqb c "."%char then (EmptyString, Some r)
      else let '(a, b) := split_dot r in (String c a, b)
  end.

Fixpoint digits_value (acc : N) (s : string) : N :=
  match s with
  | EmptyString => acc
  | String c r => digits_value (10 * acc + (code c - 48))%N r
  end.

(** [float(s)] on text over the characters [0-9], ['.'] and ['-'] (all
    that [clean_value] passes): an optional sign, digits with at most one
    point, at least one digit; anything else is a [ValueError].  The value
    is the binary64 number nearest to the decimal. *)
Definition to_float (s : string) : result float :=
  let '(neg, body) :=
    match s with
    | String "-"%char r => (true, r)
    | _ => (false, s)
    end in
  let '(ip, fp) := split_dot body in
  let fp := default EmptyString fp in
  if forallb is_digit ip && forallb is_digit fp
     && negb (Nat.eqb (String.length ip + String.length fp) 0)
  then Ok (PyFloat.of_ratio neg (digits_value 0 (ip +:+ fp))
             (Z.to_pos (10 ^ Z.of_nat (String.length fp))))
  else Raise ValueError.

End PyStr.

(** ** The numeric normaliser *)

Section Normaliser.
Import PyStr.
Local Open Scope string_scope.

(** [HybridStockAnalyzer.clean_value] (analyzer.py, lines 44-86).  The
    warning logged on a failed conversion is not part of the result. *)
Definition clean_value (text_value : option string) : result float :=
  match text_value with
  | None => Ok 0%float
  | Some text_value =>
      let text_value_stripped := strip text_value in
      if decide (text_value_stripped = "-" \/ text_value_stripped = "")
      then Ok 0%float
      else
        let cleaned_text := text_value_stripped in
        let cleaned_text :=
          if contains "R$" cleaned_text
          then strip (replace "R$" "" cleaned_text)
          else cleaned_text in
        let is_percentage := contains "%" cleaned_text in
        let cleaned_text :=
          if is_percentage
          then strip (replace "%" "" cleaned_text)
          else cleaned_text in
        let cleaned_text := replace "." "" cleaned_text in
        let cleaned_text := replace "," "." cleaned_text in
        let cleaned_text := filter keep_numeric cleaned_text in
        if decide (cleaned_text = "" \/ cleaned_text = "-")
        then Ok 0%float
        else
          try_except
            (value ← to_float cleaned_text;
             if is_percentage then PyFloat.truediv value 100%float
             else Ok value)
            ValueError
            (Ok 0%float)
  end.

(** The normaliser as the specification words it: null, empty and ["-"]
    give 0; the currency and percent markers are dropped, every ['.'] is
    removed, [','] becomes ['.'], whatever is not a digit, ['.'] or ['-']
    is dropped, the rest is parsed (0 when it does not parse), and a
    percent marker divides the value by 100. *)
Definition normalize (text : option string) : float :=
  match text with
  | None => 0%float
  | Some t =>
      if decide (t = "" \/ t = "-") then 0%float
      else
        let percent := contains "%" t in
        let t := replace "%" "" (replace "R$" "" t) in
        let t := replace "," "." (replace "." "" t) in
        let t := filter keep_numeric t in
        match to_float t with
        | Ok v => if percent then (v / 100)%float else v
        | Raise _ => 0%float
        end
  end.

End Normaliser.

(** ** The parsed document *)

(** The tree BeautifulSoup builds: text nodes and tags with a name, the
    value of the [class] attribute (a list of class names, when the
    attribute is present) and the children in document order.  The soup
    itself is the tag named ["[document]"] at the root. *)
Module Soup.

Inductive node :=
  | Text (s : string)
  | Tag (name : string) (class : option (list string)) (children : list node).

(** [tag.name == nm] *)
Definition is_tag (nm : string) (n : node) : bool :=
  match n with
  | Tag nm' _ _ => bool_decide (nm' = nm)
  | Text _ => false
  end.

(** [c in tag.get('class', [])], which is also how the [class_=c] filter
    of [find] and [find_all] selects. *)
Definition has_class (c : string) (n : node) : bool :=
  match n with
  | Tag _ (Some cs) _ => bool_decide (c ∈ cs)
  | _ => false
  end.

(** [tag.get('class') == cs] *)
Definition class_is (cs : list string) (n : node) : bool :=
  match n with
  | Tag _ (Some cs') _ => bool_decide (cs' = cs)
  | _ => false
  end.

(** [tag.string]: the text of a tag whose only child is a text node, or
    whose only child is a tag that has such a [string]. *)
Fixpoint tag_string (n : node) : option string :=
  match n with
  | Text s => Some s
  | Tag _ _ [c] => tag_string c
  | Tag _ _ _ => None
  end.

(** The tags that enclose a node, innermost first, each with the
    siblings that follow it. *)
Definition context := list (node * list node).

(** A tag at its place in the document. *)
Record located := Located {
  here : node;
  following : list node;
  enclosing : context
}.

(** The tags below [n], in document order, with their places. *)
Fixpoint below (ctx : context) (n : node) (after : list node) : list located :=
  match n with
  | Text _ => []
  | Tag _ _ ch =>
      (fix each (l : list node) : list located :=
         match l with
         | [] => []
         | c :: rest =>
             match c with
             | Text _ => each rest
             | Tag _ _ _ =>
                 Located c rest ((n, after) :: ctx)
                   :: below ((n, after) :: ctx) c rest ++ each rest
             end
         end) ch
  end.

(** [soup.find_all(p)], places kept. *)
Definition find_all_located (p : node -> bool) (soup : node) : list located :=
  List.filter (fun l => p (here l)) (below [] soup []).

(** [tag.find_all(p)] and [tag.find(p)] *)
Definition find_all (p : node -> bool) (n : node) : list node :=
  here <$> find_all_located p n.
Definition find (p : node -> bool) (n : node) : option node :=
  head (find_all p n).

(** [find_all(nm, class_=c)] selects with this test. *)
Definition named_with_class (nm c : string) (n : node) : bool :=
  is_tag nm n && has_class c n.

(** The loop [while cur and cur.name != nm: cur = cur.parent]. *)
Fixpoint climb_to (nm : string) (cur : node) (after : list node) (ctx : context)
  : option located :=
  if is_tag nm cur then Some (Located cur after ctx)
  else match ctx with
       | [] => None
       | (p, a) :: ctx' => climb_to nm p a ctx'
       end.

(** [tag.find_parent(nm)]: the nearest enclosing tag of that name. *)
Definition find_parent (nm : string) (l : located) : option located :=
  match enclosing l with
  | [] => None
  | (p, a) :: ctx => climb_to nm p a ctx
  end.

(** [tag.find_next_sibling(p)] *)
Definition find_next_sibling (p : node -> bool) (l : located) : option node :=
  head (List.filter p (following l)).

(** A text is true when it is not empty. *)
Definition nonempty (s : string) : bool := negb (bool_decide (s = EmptyString)).

(** [span.string and span.string.strip()] as the code reads a cell. *)
Definition stripped_string (n : node) : option string :=
  match tag_string n with
  | Some s => if nonempty s then Some (PyStr.strip s) else None
  | None => None
  end.

End Soup.

(** ** The table extractor *)

Section Extractor.
Import Soup.
Local Open Scope string_scope.

(** The [lambda] that recognises a section title. *)
Definition is_title_span (title : string) (tag : node) : bool :=
  is_tag "span" tag && class_is ["txt"] tag
  && bool_decide (stripped_string tag = Some title).

(** The search for the table (lines 95-109): the candidates in order; the
    first one whose title span sits inside a table wins. *)
Fixpoint find_table (html_soup : node) (table_title_texts : list string)
  : option (node * string) :=
  match table_title_texts with
  | [] => None
  | title_text_candidate :: rest =>
      match head (find_all_located (is_title_span title_text_candidate) html_soup) with
      | Some title_span =>
          match climb_to "table" (here title_span) (following title_span)
                  (enclosing title_span) with
          | Some current_element => Some (here current_element, title_text_candidate)
          | None => find_table html_soup rest
          end
      | None => find_table html_soup rest
      end
  end.

Definition dre_titles : list string :=
  ["Dados demonstrativos de resultados"; "Demonstrativo de Resultados"].
Definition dre_headlines : list string :=
  ["Receita Líquida"; "EBIT"; "Lucro Líquido"].

(** The state of the row loop: [dre_labels_order] and [table_data]. *)
Definition table_state : Type := list string * gmap string float.

(** The key under which a label is stored (lines 137-143), with the
    updated [dre_labels_order]. *)
Definition key_for (is_dre_table : bool) (dre_labels_order : list string)
    (label_orig : string) : list string * string :=
  if is_dre_table && bool_decide (label_orig ∈ dre_headlines) then
    if bool_decide (label_orig ∈ dre_labels_order)
    then (dre_labels_order, label_orig +:+ " (Últimos 3 meses)")
    else ((dre_labels_order ++ [label_orig])%list, label_orig +:+ " (Últimos 12 meses)")
  else (dre_labels_order, label_orig).

(** One label/value pair (lines 134-147). *)
Definition store_pair (is_dre_table : bool) (st : table_state)
    (label_orig value_str : string) : result table_state :=
  let '(dre_labels_order, table_data) := st in
  let '(dre_labels_order, key_to_store) :=
    key_for is_dre_table dre_labels_order label_orig in
  match table_data !! key_to_store with
  | None =>
      v ← clean_value (Some value_str);
      Ok (dre_labels_order, <[key_to_store := v]> table_data)
  | Some _ => Ok (dre_labels_order, table_data)
  end.

(** The texts of one label cell and its data cell, when both spans exist
    and both have text (lines 127-135). *)
Definition cell_pair (label_cell data_cell : node) : option (string * string) :=
  match find (named_with_class "span" "txt") label_cell,
        find (named_with_class "span" "txt") data_cell with
  | Some label_span, Some data_span =>
      match stripped_string label_span, stripped_string data_span with
      | Some label_orig, Some value_str => Some (label_orig, value_str)
      | _, _ => None
      end
  | _, _ => None
  end.

Definition store_cell (is_dre_table : bool) (st : table_state)
    (cells : node * node) : result table_state :=
  match cell_pair cells.1 cells.2 with
  | Some (label_orig, value_str) => store_pair is_dre_table st label_orig value_str
  | None => Ok st
  end.

(** A loop whose body may raise. *)
Fixpoint foldM {S X} (body : S -> X -> result S) (st : S) (xs : list X) : result S :=
  match xs with
  | [] => Ok st
  | x :: rest => st' ← body st x; foldM body st' rest
  end.

(** The header row the loop steps over (lines 120-123). *)
Definition is_header_row (row_idx : nat) (row : node)
    (label_cells data_cells : list node) : bool :=
  match label_cells, data_cells, row_idx with
  | [], [], O =>
      match find (named_with_class "td" "nivel2") row with
      | Some nivel2_td => bool_decide (is_Some (find (named_with_class "span" "txt") nivel2_td))
      | None => false
      end
  | _, _, _ => false
  end.

(** One row (lines 116-147): the label cells paired with the data cells
    by position, as far as both lists reach. *)
Definition store_row (is_dre_table : bool) (st : table_state)
    (indexed_row : nat * node) : result table_state :=
  let '(row_idx, row) := indexed_row in
  let label_cells := find_all (named_with_class "td" "label") row in
  let data_cells := find_all (named_with_class "td" "data") row in
  if is_header_row row_idx row label_cells data_cells then Ok st
  else foldM (store_cell is_dre_table) st (combine label_cells data_cells).

(** [HybridStockAnalyzer._extract_table_data] (lines 88-150), called with
    a list of titles. *)
Definition _extract_table_data (html_soup : node) (table_title_texts : list string)
  : result (gmap string float) :=
  let table_data : gmap string float := ∅ in
  match find_table html_soup table_title_texts with
  | Some (found_table, title_text_found) =>
      let rows := find_all (is_tag "tr") found_table in
      let dre_labels_order : list string := [] in
      let is_dre_table := bool_decide (title_text_found ∈ dre_titles) in
      st ← foldM (store_row is_dre_table) (dre_labels_order, table_data)
             (imap pair rows);
      Ok st.2
  | None => Ok table_data
  end.

End Extractor.

(** ** Records *)

(** What a dictionary of the analyser holds: a number or a text. *)
Inductive pyval :=
  | PyNum (f : float)
  | PyText (s : string).

(** A record such as [data]: a dictionary from names to values. *)
Abbreviation record := (gmap string pyval).

(** The use of a value as a number.  A text in an arithmetic position makes
    Python raise [TypeError] at the operation; the model raises it where the
    value is read. *)
Definition as_float (v : pyval) : result float :=
  match v with
  | PyNum f => Ok f
  | PyText _ => Raise TypeError
  end.

(** [data.get(key, 0.0)] read as a number. *)
Definition get_float (data : record) (key : string) : result float :=
  as_float (default (PyNum 0%float) (data !! key)).

(** [v == 0.0] *)
Definition is_zero (v : pyval) : bool :=
  match v with
  | PyNum f => (f =? 0)%float
  | PyText _ => false
  end.

(** ** The indicator assembler *)

Section Assembler.
Import Soup.
Local Open Scope string_scope.

Definition main_indicators_mapping : list (string * string) :=
  [ ("Cotação", "cotacao_atual"); ("P/L", "preco_lucro");
    ("P/VP", "preco_valor_patrimonial"); ("P/EBIT", "preco_ebit");
    ("PSR", "price_sales_ratio"); ("EV / EBITDA", "ev_ebitda");
    ("Div. Yield", "dividend_yield"); ("LPA", "lucro_por_acao");
    ("VPA", "valor_patrimonial_acao"); ("Marg. Bruta", "margem_bruta");
    ("Marg. EBIT", "margem_ebit"); ("Marg. Líquida", "margem_liquida");
    ("ROE", "roe"); ("ROIC", "roic"); ("Liquidez Corr", "liquidez_corrente");
    ("Div Br/ Patrim", "divida_bruta_patrimonio");
    ("Cres. Rec (5a)", "cres_receita_5a");
    ("Valor da Firma", "enterprise_value"); ("Nro. Ações", "numero_acoes") ].

(** The test of lines 172-177 on one candidate span. *)
Definition is_label_span (display_label : string) (span_tag_candidate : located) : bool :=
  bool_decide (stripped_string (here span_tag_candidate) = Some display_label)
  && match find_parent "td" span_tag_candidate with
     | Some parent_td_candidate => has_class "label" (here parent_td_candidate)
     | None => false
     end.

(** The text next to a label span (lines 179-188). *)
Definition value_text (found_span_for_label : option located) : option string :=
  match found_span_for_label with
  | Some found =>
      match find_parent "td" found with
      | Some label_td_found =>
          let value_td :=
            match find_next_sibling (named_with_class "td" "data") label_td_found with
            | Some td => Some td
            | None => find_next_sibling (is_tag "td") label_td_found
            end in
          match value_td with
          | Some value_td =>
              match find (named_with_class "span" "txt") value_td with
              | Some value_span => stripped_string value_span
              | None => None
              end
          | None => None
          end
      | None => None
      end
  | None => None
  end.

(** The text to convert for one indicator (lines 170-188). *)
Definition indicator_text (all_spans_with_txt_class : list located)
    (display_label : string) : option string :=
  value_text (head (List.filter (is_label_span display_label) all_spans_with_txt_class)).

(** One turn of the loop over the catalogue (lines 169-192). *)
Definition store_indicator (all_spans_with_txt_class : list located)
    (data : record) (entry : string * string) : result record :=
  let '(display_label, key) := entry in
  let text_to_convert := indicator_text all_spans_with_txt_class display_label in
  v ← clean_value text_to_convert;
  Ok (<[key := PyNum v]> data).

(** [d.get(k1, d.get(k2, 0.0))] on an extracted table. *)
Definition get2 (d : gmap string float) (k1 k2 : string) : float :=
  default (default 0%float (d !! k2)) (d !! k1).

(** The company name (lines 216-226). *)
Definition company_name (html_soup : node) : string :=
  match head (find_all_located (is_title_span "Empresa") html_soup) with
  | Some empresa_label_span =>
      match find_parent "td" empresa_label_span with
      | Some parent_td =>
          if has_class "label" (here parent_td) then
            match find_next_sibling (named_with_class "td" "data") parent_td with
            | Some value_td =>
                match find (named_with_class "span" "txt") value_td with
                | Some nome_span => default "N/A" (stripped_string nome_span)
                | None => "N/A"
                end
            | None => "N/A"
            end
          else "N/A"
      | None => "N/A"
      end
  | None => "N/A"
  end.

(** [data[key]], and [data[key]] read as a number. *)
Definition item (data : record) (key : string) : result pyval :=
  match data !! key with
  | Some v => Ok v
  | None => Raise KeyError
  end.
Definition item_float (data : record) (key : string) : result float :=
  v ← item data key; as_float v.

(** The main indicators (lines 167-192). *)
Definition main_indicators (html_soup : node) (data : record) : result record :=
  let all_spans_with_txt_class :=
    find_all_located (named_with_class "span" "txt") html_soup in
  foldM (store_indicator all_spans_with_txt_class) data main_indicators_mapping.

(** The income-statement fields (lines 195-198). *)
Definition income_statement_fields (html_soup : node) (data : record)
  : result record :=
  dados_dre ← _extract_table_data html_soup dre_titles;
  let data := <["ebit_12m" :=
    PyNum (get2 dados_dre "EBIT (Últimos 12 meses)" "EBIT")]> data in
  let data := <["lucro_liquido_12m" :=
    PyNum (get2 dados_dre "Lucro Líquido (Últimos 12 meses)" "Lucro Líquido")]> data in
  let data := <["receita_liquida_12m" :=
    PyNum (get2 dados_dre "Receita Líquida (Últimos 12 meses)" "Receita Líquida")]> data in
  Ok data.

(** The balance-sheet fields (lines 200-213). *)
Definition balance_sheet_fields (html_soup : node) (data : record)
  : result record :=
  balanco_data ← _extract_table_data html_soup
                   ["Dados Balanço Patrimonial"; "Balanço Patrimonial"];
  let data := <["ativo_circulante" :=
    PyNum (default 0%float (balanco_data !! "Ativo Circulante"))]> data in
  let data := <["passivo_circulante" :=
    PyNum (default 0%float (balanco_data !! "Passivo Circulante"))]> data in
  let data := <["ativo_imobilizado_liquido" :=
    PyNum (get2 balanco_data "Ativo Imobilizado" "Imobilizado")]> data in
  ativo_imobilizado_liquido ← item data "ativo_imobilizado_liquido";
  let data :=
    if is_zero ativo_imobilizado_liquido
    then <["ativo_imobilizado_liquido" :=
           PyNum (default 0%float (balanco_data !! "Ativo Não Circulante"))]> data
    else data in
  let data := <["patrimonio_liquido_total" :=
    match balanco_data !! "Patrim. Líq" with
    | Some v => PyNum v
    | None => default (PyNum 0%float) (data !! "patrimonio_liquido_total")
    end]> data in
  Ok data.

(** The company name field (lines 216-226). *)
Definition company_name_field (html_soup : node) (data : record) : record :=
  let nome_empresa_completo := company_name html_soup in
  <["nome_empresa_completo" := PyText nome_empresa_completo]> data.

(** The Greenblatt fields (lines 228-241). *)
Definition greenblatt_fields (data : record) : result record :=
  ev_g ← get_float data "enterprise_value";
  ebit_g ← get_float data "ebit_12m";
  ativo_circulante ← item_float data "ativo_circulante";
  passivo_circulante ← item_float data "passivo_circulante";
  let nwc_g := (ativo_circulante - passivo_circulante)%float in
  nfa_g ← item_float data "ativo_imobilizado_liquido";
  let data := <["greenblatt_nwc_calculado" := PyNum nwc_g]> data in
  let data := <["greenblatt_nfa_usado" := PyNum nfa_g]> data in
  let data := <["greenblatt_ebit_usado" := PyNum ebit_g]> data in
  let data := <["greenblatt_ev_usado" := PyNum ev_g]> data in
  earnings_yield ←
    (if PyFloat.truthy ev_g then PyFloat.truediv ebit_g ev_g else Ok 0%float);
  let data := <["greenblatt_earnings_yield" := PyNum earnings_yield]> data in
  let capital_investido_g := (nwc_g + nfa_g)%float in
  return_on_capital ←
    (if PyFloat.truthy capital_investido_g
     then PyFloat.truediv ebit_g capital_investido_g else Ok 0%float);
  let data := <["greenblatt_return_on_capital" := PyNum return_on_capital]> data in
  Ok data.

(** [HybridStockAnalyzer.extract_financial_data] (lines 152-246), in the
    order of its sections; the ticker is used for log lines only. *)
Definition extract_financial_data (html_soup : node) (original_ticker_input : string)
  : result record :=
  let data : record := ∅ in
  data ← main_indicators html_soup data;
  data ← income_statement_fields html_soup data;
  data ← balance_sheet_fields html_soup data;
  let data := company_name_field html_soup data in
  greenblatt_fields data.

End Assembler.

(** ** The valuation engine *)

Section Valuation.
Local Open Scope string_scope.
Local Open Scope float_scope.
Import PyFloat.

(** The Graham block (lines 256-263). *)
Definition graham_model (lpa vpa : float) : result float :=
  let graham := 0 in
  if (0 <? lpa) && (0 <? vpa) then
    try_except
      (graham_value ← PyFloat.sqrt (22.5 * lpa * vpa);
       Ok (round2 graham_value))
      ValueError
      (Ok graham)
  else Ok graham.

(** The dividend-discount block (lines 265-283).  [max(ddm_value, 0)]
    yields the integer 0 when the value is negative; the model keeps the
    float of the same value. *)
Definition ddm_model (cotacao div_yield roe lpa : float) : result float :=
  let ddm := 0 in
  if (0 <? cotacao) && (0 <? div_yield) && (0 <? roe) && negb (lpa =? 0) then
    let dpa := cotacao * div_yield in
    payout_ratio ← truediv dpa lpa;
    if (0 <=? payout_ratio) && (payout_ratio <=? 1) then
      let retention_ratio := 1 - payout_ratio in
      let g := roe * retention_ratio in
      let required_rate_of_return := 0.12 in
      if (g <? required_rate_of_return) && (0 <=? g) then
        let d1 := dpa * (1 + g) in
        let denominator_ddm := required_rate_of_return - g in
        if 1e-6 <? denominator_ddm then
          ddm_value ← truediv d1 denominator_ddm;
          Ok (round2 (PyFloat.min (PyFloat.max ddm_value 0) (cotacao * 5)))
        else Ok ddm
      else Ok ddm
    else Ok ddm
  else Ok ddm.

(** The adjusted P/E block (lines 285-291). *)
Definition pe_score (roe liquidez_corrente : float) : Z :=
  let score_pl := 0%Z in
  let score_pl :=
    if 0.15 <? roe then (score_pl + 3)%Z
    else if 0.10 <? roe then (score_pl + 2)%Z
    else score_pl in
  if 1.5 <? liquidez_corrente then (score_pl + 2)%Z else score_pl.

Definition pe_adjusted_model (roe liquidez_corrente lpa : float) : float :=
  let score_pl := pe_score roe liquidez_corrente in
  let pl_justo_multiplicador := PyFloat.min (8 + of_int score_pl * 1.5) 25 in
  round2 (lpa * pl_justo_multiplicador).

(** The adjusted P/VP block (lines 293-298). *)
Definition pvp_adjusted_model (roe vpa : float) : float :=
  let multiplicador_pvp :=
    if 0.20 <? roe then 2.5
    else if 0.15 <? roe then 2.0
    else if 0.10 <? roe then 1.5
    else 1.0 in
  round2 (vpa * multiplicador_pvp).

Definition model_weights : list (string * float) :=
  [("graham", 0.3); ("ddm", 0.2); ("pe_adjusted", 0.3); ("pvp_adjusted", 0.2)].

(** The loop of lines 301-306: the values above zero and their weights. *)
Definition positive_models (res : gmap string float) : list float * list float :=
  fold_left
    (fun '(vals, wts) '(key, weight) =>
       let val := default 0 (res !! key) in
       if 0 <? val then (vals ++ [val], wts ++ [weight])%list else (vals, wts))
    model_weights ([], []).

(** The weighted average (lines 307-311). *)
Definition average_model (res : gmap string float) : float :=
  let '(vals, wts) := positive_models res in
  let average := 0 in
  match vals with
  | [] => average
  | _ =>
      let total_wt := PyFloat.sum wts in
      if 0 <? total_wt then
        round2 (PyFloat.sum ((fun '(v_i, w_i) => v_i * (w_i / total_wt)) <$> combine vals wts))
      else average
  end.

(** [HybridStockAnalyzer.calculate_fair_price] (lines 248-314); the
    ticker is used for log lines only. *)
Definition calculate_fair_price (data : record) : result (gmap string float) :=
  let res : gmap string float := ∅ in
  lpa ← get_float data "lucro_por_acao";
  vpa ← get_float data "valor_patrimonial_acao";
  cotacao ← get_float data "cotacao_atual";
  roe ← get_float data "roe";
  div_yield ← get_float data "dividend_yield";
  graham ← graham_model lpa vpa;
  let res := <["graham" := graham]> res in
  ddm ← ddm_model cotacao div_yield roe lpa;
  let res := <["ddm" := ddm]> res in
  liquidez_corrente ← get_float data "liquidez_corrente";
  let res := <["pe_adjusted" := pe_adjusted_model roe liquidez_corrente lpa]> res in
  let res := <["pvp_adjusted" := pvp_adjusted_model roe vpa]> res in
  let res := <["average" := average_model res]> res in
  Ok res.

End Valuation.

(** ** The recommendation scorer *)

Record analysis := Analysis {
  recommendation : string;
  risk_level : string;
  strengths : list string;
  weaknesses : list string;
  summary : string;
  score : Z
}.

Section Scorer.
Local Open Scope string_scope.
Local Open Scope float_scope.
Import PyFloat.

(** The analysis being filled in, with the running [score_analise]. *)
Definition scoring : Type := analysis * Z.

Definition recommend (r : string) (delta : Z) (st : scoring) : scoring :=
  let '(a, sc) := st in
  (Analysis r (risk_level a) (strengths a) (weaknesses a) (summary a) (score a),
   (sc + delta)%Z).

Definition strength (note : string) (delta : Z) (st : scoring) : scoring :=
  let '(a, sc) := st in
  (Analysis (recommendation a) (risk_level a) (strengths a ++ [note])%list
     (weaknesses a) (summary a) (score a),
   (sc + delta)%Z).

Definition weakness (note : string) (delta : Z) (st : scoring) : scoring :=
  let '(a, sc) := st in
  (Analysis (recommendation a) (risk_level a) (strengths a)
     (weaknesses a ++ [note])%list (summary a) (score a),
   (sc + delta)%Z).

(** The tiers of the margin (lines 328-333), in the order of the code. *)
Definition margin_tier (discount_margin : float) (st : scoring) : scoring :=
  if 0.30 <? discount_margin then recommend "COMPRAR FORTE" 3 st
  else if 0.15 <? discount_margin then recommend "COMPRAR" 2 st
  else if 0.05 <? discount_margin then recommend "COMPRAR FRACO" 1 st
  else if discount_margin <? -0.15 then recommend "VENDER FRACO" (-1) st
  else if discount_margin <? -0.30 then recommend "VENDER" (-2) st
  else if discount_margin <? -0.50 then recommend "VENDER FORTE" (-3) st
  else st.

(** The valuation part (lines 325-339). *)
Definition valuation_rule (cotacao_atual preco_justo_medio : float) (st : scoring)
  : result scoring :=
  if (0 <? preco_justo_medio) && (0 <? cotacao_atual) then
    discount_margin ← truediv (preco_justo_medio - cotacao_atual) cotacao_atual;
    Ok (strength ("Potencial de valorização (vs Cotação Atual): "
                    +:+ format_pct2 discount_margin) 0
          (margin_tier discount_margin st))
  else if (cotacao_atual <=? 0) && (0 <? preco_justo_medio) then
    Ok (recommend "ANALISAR (Cotação Anormal)" 0 st)
  else if (preco_justo_medio <=? 0) && (0 <? cotacao_atual) then
    Ok (weakness "Média dos preços justos (positivos) não é conclusiva ou é zero." 0
          (recommend "CAUTELA" 0 st))
  else Ok st.

(** The six quality indicators (lines 348-367). *)
Definition roe_rule (roe : float) (st : scoring) : scoring :=
  if 0.20 <? roe then strength ("ROE Excelente: " +:+ format_pct2 roe) 2 st
  else if 0.10 <? roe then strength ("ROE Bom: " +:+ format_pct2 roe) 1 st
  else if (roe <? 0.0) && negb (roe =? 0.0)
    then weakness ("ROE Negativo: " +:+ format_pct2 roe) (-2) st
  else st.

Definition roic_rule (roic : float) (st : scoring) : scoring :=
  if 0.15 <? roic then strength ("ROIC Excelente: " +:+ format_pct2 roic) 2 st
  else if 0.10 <? roic then strength ("ROIC Bom: " +:+ format_pct2 roic) 1 st
  else if (roic <? 0.0) && negb (roic =? 0.0)
    then weakness ("ROIC Negativo: " +:+ format_pct2 roic) (-2) st
  else st.

Definition pl_rule (pl : float) (st : scoring) : scoring :=
  if (0 <? pl) && (pl <? 10)
    then strength ("P/L (Preço/Lucro) Baixo: " +:+ format_f2 pl) 1 st
  else if pl <? 0
    then weakness ("P/L Negativo (Prejuízo): " +:+ format_f2 pl) (-2) st
  else st.

Definition debt_rule (div_br_patrim : float) (st : scoring) : scoring :=
  if (0 <=? div_br_patrim) && (div_br_patrim <? 0.5)
    then strength ("Endividamento (Dív. Bruta/PL) Baixo: " +:+ format_f2 div_br_patrim) 1 st
  else if 1.0 <? div_br_patrim
    then weakness ("Endividamento (Dív. Bruta/PL) Alto: " +:+ format_f2 div_br_patrim) (-1) st
  else if div_br_patrim <? 0
    then weakness ("Dív. Bruta/PL Negativo (PL Negativo?): " +:+ format_f2 div_br_patrim) (-2) st
  else st.

Definition liquidity_rule (liq_corr : float) (st : scoring) : scoring :=
  if 2.0 <? liq_corr
    then strength ("Liquidez Corrente Ótima: " +:+ format_f2 liq_corr) 1 st
  else if (liq_corr <? 1.0) && (0 <=? liq_corr)
    then weakness ("Liquidez Corrente Baixa: " +:+ format_f2 liq_corr) (-1) st
  else st.

Definition growth_rule (cres_receita : float) (st : scoring) : scoring :=
  if 0.10 <? cres_receita
    then strength ("Crescimento da Receita (5a) Bom: " +:+ format_pct2 cres_receita) 1 st
  else if (cres_receita <? 0.0) && negb (cres_receita =? 0.0)
    then weakness ("Crescimento da Receita (5a) Negativo: " +:+ format_pct2 cres_receita) (-1) st
  else st.

(** [s.upper()] on ASCII letters, which is what tickers are made of. *)
Definition upper_char (c : ascii) : ascii :=
  let n := N_of_ascii c in
  if ((97 <=? n) && (n <=? 122))%N then ascii_of_N (n - 32) else c.
Fixpoint upper (s : string) : string :=
  match s with
  | EmptyString => EmptyString
  | String c r => String (upper_char c) (upper r)
  end.

(** [str(n)] of an integer. *)
Definition int_text (z : Z) : string :=
  ((if (z <? 0)%Z then "-" else "") +:+ decimal (Z.abs_N z)).

(** The text shown for the company: the name of the record, or the ticker
    in capitals when the record has none.  A number under that key would
    be printed by Python; the records of this development keep a text
    there, and the model treats a number as the typing fault it treats a
    text in a numeric field. *)
Definition display_name (data : record) (ticker_input_original : string)
  : result string :=
  match data !! "nome_empresa_completo" with
  | Some (PyText s) => Ok s
  | Some (PyNum _) => Raise TypeError
  | None => Ok (upper ticker_input_original)
  end.

(** [HybridStockAnalyzer.generate_investment_analysis] (lines 316-371). *)
Definition generate_investment_analysis (data : record)
    (fair_prices : gmap string float) (ticker_input_original : string)
  : result analysis :=
  let analysis := Analysis "NEUTRO" "MÉDIO" [] [] "" 0 in
  cotacao_atual ← get_float data "cotacao_atual";
  let preco_justo_medio := default 0 (fair_prices !! "average") in
  let score_analise := 0%Z in
  st ← valuation_rule cotacao_atual preco_justo_medio (analysis, score_analise);
  roe ← get_float data "roe";
  roic ← get_float data "roic";
  pl ← get_float data "preco_lucro";
  div_br_patrim ← get_float data "divida_bruta_patrimonio";
  liq_corr ← get_float data "liquidez_corrente";
  cres_receita ← get_float data "cres_receita_5a";
  let st := roe_rule roe st in
  let st := roic_rule roic st in
  let st := pl_rule pl st in
  let st := debt_rule div_br_patrim st in
  let st := liquidity_rule liq_corr st in
  let st := growth_rule cres_receita st in
  let '(analysis, score_analise) := st in
  let final_score := Z.max (Z.min score_analise 10) (-10) in
  name ← display_name data ticker_input_original;
  Ok (Analysis (recommendation analysis) (risk_level analysis)
        (strengths analysis) (weaknesses analysis)
        (upper ticker_input_original +:+ " (" +:+ name +:+ "): "
           +:+ recommendation analysis +:+ " (Score " +:+ int_text final_score +:+ ")")
        final_score).

End Scorer.

(** A record of numbers and its company name, as a dictionary. *)
Definition record_of (fields : list (string * float)) (name : option string) : record :=
  let data : record := list_to_map (prod_map id PyNum <$> fields) in
  match name with
  | Some s => <["nome_empresa_completo" := PyText s]> data
  | None => data
  end.

Definition scenario : record :=
  record_of [("cotacao_atual", 10.0); ("preco_lucro", 8.0); ("lucro_por_acao", 1.5);
             ("valor_patrimonial_acao", 12.0); ("roe", 0.18); ("liquidez_corrente", 2.0);
             ("divida_bruta_patrimonio", 0.3); ("dividend_yield", 0.0)]%float None.

Local Close Scope Z_scope.

(** * Specification vocabulary

    Predicates and reference functions in which the properties of the
    valuation engine and of the scorer are stated. *)
Section ValuationSpec.
Local Open Scope string_scope.
Local Open Scope float_scope.
Import PyFloat.

(** A spec float that is not below zero: NaN, a zero, or sign bit clear. *)
Definition SFnot_neg (x : spec_float) : bool :=
  match x with
  | S754_zero _ | S754_nan => true
  | S754_infinity s | S754_finite s _ _ => negb s
  end.

Definition not_neg (x : float) : Prop := (x <? 0) = false.

Definition ddm_preconditions (cotacao div_yield roe lpa : float) : bool :=
  (0 <? cotacao) && (0 <? div_yield) && (0 <? roe) && negb (lpa =? 0)
  && (let payout := cotacao * div_yield / lpa in
      (0 <=? payout) && (payout <=? 1)
      && (let g := roe * (1 - payout) in
          (g <? 0.12) && (0 <=? g) && (1e-6 <? 0.12 - g))).

Definition ddm_value (cotacao div_yield roe lpa : float) : float :=
  let payout := cotacao * div_yield / lpa in
  let g := roe * (1 - payout) in
  round2 (PyFloat.min (PyFloat.max (cotacao * div_yield * (1 + g) / (0.12 - g)) 0)
            (cotacao * 5)).

(** [res.get(key, 0.0)] *)
Definition value_of (res : gmap string float) (key : string) : float :=
  default 0 (res !! key).




Definition name_key : string := "nome_empresa_completo".

(** A record is well typed when its texts sit under the name key and its
    numbers under the other keys. *)
Definition well_typed (data : record) : Prop :=
  map_Forall (fun k v => match v with
                         | PyText _ => k = name_key
                         | PyNum _ => k <> name_key
                         end) data.

(** The four models and the composite, from the six numbers the engine reads. *)
Definition models_of (lpa vpa cotacao roe div_yield liquidez_corrente : float)
  : gmap string float :=
  <["pvp_adjusted" := pvp_adjusted_model roe vpa]>
    (<["pe_adjusted" := pe_adjusted_model roe liquidez_corrente lpa]>
       (<["ddm" := if ddm_preconditions cotacao div_yield roe lpa
                   then ddm_value cotacao div_yield roe lpa else 0]>
          (<["graham" := if (0 <? lpa) && (0 <? vpa)
                         then round2 (PrimFloat.sqrt (22.5 * lpa * vpa)) else 0]> ∅))).

Definition fair_prices_of (lpa vpa cotacao roe div_yield liquidez_corrente : float)
  : gmap string float :=
  let res := models_of lpa vpa cotacao roe div_yield liquidez_corrente in
  <["average" := average_model res]> res.

#[global] Instance well_typed_dec data : Decision (well_typed data).
Proof. unfold well_typed. apply map_Forall_dec. intros k [f|s]; apply _. Defined.

(** The exact value of a finite float. *)
Definition exact (x : float) : Q :=
  match Prim2SF x with
  | S754_finite s m e =>
      ((if s then -1 else 1) * (Z.pos m # 1) * Qpower 2 e)%Q
  | _ => 0%Q
  end.



(** The ways a precondition of the dividend-discount model can fail. *)
Definition ddm_failure (cotacao div_yield roe lpa : float) : bool :=
  let payout := cotacao * div_yield / lpa in
  let g := roe * (1 - payout) in
  (cotacao <=? 0) || (div_yield <=? 0) || (roe <=? 0) || (lpa =? 0)
  || (payout <? 0) || (1 <? payout)
  || negb ((g <? 0.12) && (0 <=? g))
  || (0.12 - g <=? 1e-6).


(** The risk level carried by a scoring state. *)
Definition risk_of (st : scoring) : string := risk_level st.1.

Definition overpriced : record :=
  record_of [("cotacao_atual", 10.0); ("valor_patrimonial_acao", 4.0)] None.

End ValuationSpec.

(** Reference functions for the normaliser. *)
Section NormaliserSpec.
Local Open Scope string_scope.
Import PyStr.

(** What the last three steps of the normaliser keep of a text. *)
Definition kept (s : string) : string :=
  filter keep_numeric (replace "," "." (replace "." "" s)).

(** The image of one character under these steps. *)
Definition kept_char (c : ascii) (rest : string) : string :=
  if Ascii.eqb c "." then rest
  else if Ascii.eqb c "," then String "." rest
  else if keep_numeric c then String c rest
  else rest.

Fixpoint sdrop (k : nat) (s : string) : string :=
  match k, s with
  | S k', String _ r => sdrop k' r
  | _, _ => s
  end.

End NormaliserSpec.

(** Reference functions for the table extractor and the assembler. *)
Section ExtractorSpec.
Local Open Scope string_scope.
Import Soup.

(** The label/value pairs a row yields, in order. *)
Definition row_pairs (row : node) : list (string * string) :=
  omap (fun cells : node * node => cell_pair cells.1 cells.2)
    (combine (find_all (named_with_class "td" "label") row)
             (find_all (named_with_class "td" "data") row)).

(** The label/value pairs of a table, row after row. *)
Definition table_pairs (table : node) : list (string * string) :=
  concat (row_pairs <$> find_all (is_tag "tr") table).

(** The effect of one pair on the state of the loop. *)
Definition store (is_dre_table : bool) (st : table_state) (pair : string * string)
  : table_state :=
  let '(dre_labels_order, key_to_store) := key_for is_dre_table st.1 pair.1 in
  (dre_labels_order,
   match st.2 !! key_to_store with
   | None => <[key_to_store := normalize (Some pair.2)]> st.2
   | Some _ => st.2
   end).

(** The state after a run of pairs. *)
Definition stored (is_dre_table : bool) (st : table_state)
    (pairs : list (string * string)) : table_state :=
  fold_left (store is_dre_table) pairs st.

Definition suffix_12m : string := " (Últimos 12 meses)".

Definition suffix_3m : string := " (Últimos 3 meses)".

(** A key that holds a number. *)
Definition num_at (data : record) (key : string) : Prop :=
  exists f, data !! key = Some (PyNum f).

(** The effect of one catalogue entry. *)
Definition indicator_step (spans : list located) (data : record)
    (entry : string * string) : record :=
  <[entry.2 := PyNum (normalize (indicator_text spans entry.1))]> data.




End ExtractorSpec.

(** A small page with both statement tables. *)
Section SamplePage.
Local Open Scope string_scope.
Import Soup PyStr.

(** Markup of the kind the source page has. *)
Definition span_txt (s : string) : node := Tag "span" (Some ["txt"]) [Text s].

Definition cell (classes : list string) (s : string) : node :=
  Tag "td" (Some classes) [span_txt s].

Definition label_cell (s : string) : node :=
  Tag "td" (Some ["label"; "w15"])
    [Tag "span" (Some ["help"; "tips"]) [Text "?"]; span_txt s].

Definition row (cells : list node) : node := Tag "tr" None cells.

Definition statement_table : node :=
  Tag "table" (Some ["w728"])
    [ row [Tag "td" (Some ["nivel1"]) [span_txt "Dados demonstrativos de resultados"]];
      row [Tag "td" (Some ["nivel2"]) [span_txt "Últimos 12 meses"];
           Tag "td" (Some ["nivel2"]) [span_txt "Últimos 3 meses"]];
      row [label_cell "Receita Líquida"; cell ["data"; "w2"] " 1.000 ";
           label_cell "Receita Líquida"; cell ["data"; "w2"] "250"];
      row [label_cell "EBIT"; cell ["data"; "w2"] "300";
           label_cell "EBIT"; cell ["data"; "w2"] "-75"] ].

Definition sample_page : node :=
  Tag "[document]" None
    [ Tag "html" None
        [ Tag "table" (Some ["w728"])
            [ row [label_cell "Papel"; cell ["data"; "w35"] "PETR4";
                   label_cell "Cotação"; cell ["data"; "destaque"; "w3"] "10,00"];
              row [label_cell "Empresa"; cell ["data"] "PETROBRAS PN";
                   label_cell "Div. Yield"; cell ["data"] "12,5%"] ];
          statement_table ] ].

End SamplePage.

(** * The rest of the analyser

    The ticker variants and the analysis of one stock, which calls the
    four steps above. *)
Section Tickers.
Local Open Scope string_scope.
Import PyStr.

(** ** Ticker variants *)

(** [s.endswith(suffix)] *)
Fixpoint endswith (suffix s : string) : bool :=
  bool_decide (s = suffix) ||
  match s with
  | String _ r => endswith suffix r
  | EmptyString => false
  end.

(** [A-Z] *)
Definition is_capital (c : ascii) : bool :=
  let n := code c in ((65 <=? n) && (n <=? 90))%N.

(** [$]: the end of the text, or the line feed that ends it. *)
Definition at_end (s : string) : bool :=
  bool_decide (s = "") || bool_decide (s = String "010" "").

(** [re.match(r"^[A-Z]{4}\d{1,2}$", s)] on ASCII text: four capitals, then
    one or two digits, up to the end. *)
Definition matches_b3 (s : string) : bool :=
  match s with
  | String a (String b (String c (String d (String e r)))) =>
      is_capital a && is_capital b && is_capital c && is_capital d && is_digit e
      && (at_end r
          || match r with
             | String f r' => is_digit f && at_end r'
             | EmptyString => false
             end)
  | _ => false
  end.

(** The dictionary [_prepare_ticker_variants] returns. *)
Record ticker_variants := TickerVariants {
  original : string;
  base : string;
  yfinance : string;
  fundamentus : string;
  finnhub : string
}.

(** [HybridStockAnalyzer._prepare_ticker_variants] (lines 24-42), on ASCII
    tickers. *)
Definition _prepare_ticker_variants (original_ticker : string) : ticker_variants :=
  let base_ticker := upper (strip original_ticker) in
  let fundamentus_ticker := replace ".SA" "" base_ticker in
  let finnhub_ticker := fundamentus_ticker in
  let yfinance_ticker := fundamentus_ticker in
  let yfinance_ticker :=
    if negb (endswith ".SA" yfinance_ticker) then
      if matches_b3 yfinance_ticker then yfinance_ticker +:+ ".SA"
      else yfinance_ticker
    else yfinance_ticker in
  TickerVariants original_ticker base_ticker yfinance_ticker fundamentus_ticker
    finnhub_ticker.

(** [A-Za-z] *)
Definition is_letter (c : ascii) : bool :=
  is_capital c || (let n := code c in ((97 <=? n) && (n <=? 122))%N).

(** Four letters and one or two digits, nothing else. *)
Definition stock_code (s : string) : bool :=
  match s with
  | String a (String b (String c (String d (String e r)))) =>
      is_letter a && is_letter b && is_letter c && is_letter d && is_digit e
      && match r with
         | EmptyString => true
         | String f EmptyString => is_digit f
         | _ => false
         end
  | _ => false
  end.

(** The suffix of a Brazilian listing, in any case, or none. *)
Definition sa_suffixes : list string := [""; ".SA"; ".sa"; ".Sa"; ".sA"].

End Tickers.

(** ** The analysis of one stock *)

Section Analysis.
Import Soup PyStr.
Local Open Scope string_scope.




(** [str(e)] for an exception raised by the analyser's own steps. *)
Variable exn_message : exn -> string.



End Analysis.

(** * Further vocabulary

    The scorer and the valuation engine. *)
Section ScorerSpec.
Local Open Scope string_scope.
Local Open Scope float_scope.
Import PyFloat.

(** The six indicator rules, in the order of the code. *)
Definition indicator_rules (roe roic pl div_br_patrim liq_corr cres_receita : float)
    (st : scoring) : scoring :=
  growth_rule cres_receita
    (liquidity_rule liq_corr
       (debt_rule div_br_patrim
          (pl_rule pl (roic_rule roic (roe_rule roe st))))).

(** The valuation part without its error path. *)
Definition valuation_outcome (cotacao_atual preco_justo_medio : float) (st : scoring)
  : scoring :=
  if (0 <? preco_justo_medio) && (0 <? cotacao_atual) then
    let discount_margin := (preco_justo_medio - cotacao_atual) / cotacao_atual in
    strength ("Potencial de valorização (vs Cotação Atual): "
                +:+ format_pct2 discount_margin) 0
      (margin_tier discount_margin st)
  else if (cotacao_atual <=? 0) && (0 <? preco_justo_medio) then
    recommend "ANALISAR (Cotação Anormal)" 0 st
  else if (preco_justo_medio <=? 0) && (0 <? cotacao_atual) then
    weakness "Média dos preços justos (positivos) não é conclusiva ou é zero." 0
      (recommend "CAUTELA" 0 st)
  else st.

(** A scoring state with notes added and the score moved. *)
Definition noted (s w : list string) (d : Z) (st : scoring) : scoring :=
  (Analysis (recommendation st.1) (risk_level st.1) (strengths st.1 ++ s)%list
     (weaknesses st.1 ++ w)%list (summary st.1) (score st.1),
   (st.2 + d)%Z).

(** What one indicator rule may do: nothing, one strength with a gain, or
    one weakness with a loss. *)
Definition one_note (s w : list string) (d : Z) : Prop :=
  (s = [] /\ w = [] /\ d = 0%Z) \/
  (exists n, s = [n] /\ w = [] /\ (1 <= d <= 2)%Z) \/
  (exists n, s = [] /\ w = [n] /\ (-2 <= d <= -1)%Z).

(** Notes and running score go together. *)
Definition notes_bound (n : nat) (st : scoring) : Prop :=
  (length (strengths st.1) + length (weaknesses st.1) <= n)%nat /\
  (strengths st.1 = [] -> (st.2 <= 0)%Z) /\
  (weaknesses st.1 = [] -> (-1 <= st.2)%Z).

(** The recommendations the scorer can reach. *)
Definition recommendations : list string :=
  ["NEUTRO"; "COMPRAR FORTE"; "COMPRAR"; "COMPRAR FRACO"; "VENDER FRACO";
   "ANALISAR (Cotação Anormal)"; "CAUTELA"].

(** The analysis and score the scorer starts from. *)
Definition start : scoring := (Analysis "NEUTRO" "MÉDIO" [] [] "" 0, 0%Z).

(** Records for the examples: a quote with a current ratio and a debt
    ratio that earn no note, a book value without a quote, and a quote
    alone. *)
Definition steady : record :=
  record_of [("cotacao_atual", 10.0); ("liquidez_corrente", 1.5);
             ("divida_bruta_patrimonio", 0.7)] None.

Definition no_quote : record :=
  record_of [("valor_patrimonial_acao", 4.0)] None.

Definition no_earnings : record :=
  record_of [("cotacao_atual", 10.0)] None.

(** The recommendation a margin earns, as the code orders its tests. *)
Definition margin_recommendation (discount_margin : float) : string :=
  if 0.30 <? discount_margin then "COMPRAR FORTE"
  else if 0.15 <? discount_margin then "COMPRAR"
  else if 0.05 <? discount_margin then "COMPRAR FRACO"
  else if discount_margin <? -0.15 then "VENDER FRACO"
  else "NEUTRO".

(** The multiplier of the adjusted P/E, by return on equity and current
    ratio. *)
Definition pe_multiplier (roe liquidez_corrente : float) : float :=
  if 0.15 <? roe then (if 1.5 <? liquidez_corrente then 15.5 else 12.5)
  else if 0.10 <? roe then (if 1.5 <? liquidez_corrente then 14 else 11)
  else (if 1.5 <? liquidez_corrente then 11 else 8).

(** The keys of the fair-price set. *)
Definition model_keys : list string :=
  ["graham"; "ddm"; "pe_adjusted"; "pvp_adjusted"; "average"].

(** The fields [calculate_fair_price] reads. *)
Definition input_keys : list string :=
  ["lucro_por_acao"; "valor_patrimonial_acao"; "cotacao_atual"; "roe";
   "dividend_yield"; "liquidez_corrente"].

End ScorerSpec.

(** The tables and the assembled record. *)
Section TablesSpec.
Local Open Scope string_scope.
Local Open Scope list_scope.
Import Soup.

(** The mapping [_extract_table_data] returns, without its error path. *)
Definition table_of (html_soup : node) (table_title_texts : list string)
  : gmap string float :=
  match find_table html_soup table_title_texts with
  | Some (found_table, title_text_found) =>
      (stored (bool_decide (title_text_found ∈ dre_titles)) ([], ∅)
         (table_pairs found_table)).2
  | None => ∅
  end.


(** The titles under which the balance sheet is looked for. *)
Definition balance_titles : list string :=
  ["Dados Balanço Patrimonial"; "Balanço Patrimonial"].






(** The fixed-asset figure: the table's, or the non-current assets when
    that figure is zero. *)
Definition fixed_assets (balanco_data : gmap string float) : float :=
  let v := get2 balanco_data "Ativo Imobilizado" "Imobilizado" in
  if (v =? 0)%float then default 0%float (balanco_data !! "Ativo Não Circulante") else v.

(** [a / b if b else 0.0] *)
Definition ratio_or_zero (a b : float) : float :=
  if (b =? 0)%float then 0%float else (a / b)%float.

(** The number under a key of a record. *)
Definition number_at (data : record) (key : string) (f : float) : Prop :=
  data !! key = Some (PyNum f).

End TablesSpec.

(** The characters of a text. *)
Section TextSpec.
Local Open Scope string_scope.
Import PyStr.

(** The characters that decide the value of a text: the digits, the
    decimal comma, the minus sign and the percent sign. *)
Definition significant (c : ascii) : bool :=
  is_digit c || Ascii.eqb c "," || Ascii.eqb c "-" || Ascii.eqb c "%".

(** How often a character occurs in a text. *)
Fixpoint occurrences (c : ascii) (s : string) : nat :=
  match s with
  | EmptyString => O
  | String x r => (if Ascii.eqb x c then 1 else 0) + occurrences c r
  end.

End TextSpec.

(** * Properties

    Comparison with zero and the sign of binary64 operations. *)
Section FloatOrder.
Local Open Scope float_scope.

Lemma Prim2SF_zero : Prim2SF 0 = S754_zero false.
Proof. reflexivity. Qed.

Lemma lt_zero_spec x : (x <? 0) = SFltb (Prim2SF x) (S754_zero false).
Proof. rewrite FloatAxioms.ltb_spec. reflexivity. Qed.

Lemma zero_lt_spec x : (0 <? x) = SFltb (S754_zero false) (Prim2SF x).
Proof. rewrite FloatAxioms.ltb_spec. reflexivity. Qed.

Lemma eq_zero_spec x : (x =? 0) = SFeqb (Prim2SF x) (S754_zero false).
Proof. rewrite FloatAxioms.eqb_spec. reflexivity. Qed.

Lemma le_zero_spec x : (x <=? 0) = SFleb (Prim2SF x) (S754_zero false).
Proof. rewrite FloatAxioms.leb_spec. reflexivity. Qed.

Lemma pos_not_zero x : (0 <? x) = true -> (x =? 0) = false.
Proof.
  rewrite zero_lt_spec, eq_zero_spec.
  destruct (Prim2SF x) as [s|s| |s m e]; try destruct s; cbn; congruence.
Qed.

Lemma above_small_not_zero x : (1e-6 <? x) = true -> (x =? 0) = false.
Proof.
  rewrite FloatAxioms.ltb_spec, eq_zero_spec.
  destruct (Prim2SF x) as [s|s| |s m e]; try destruct s; vm_compute; congruence.
Qed.

Lemma le_zero_not_pos x : (x <=? 0) = true -> (0 <? x) = false.
Proof.
  rewrite zero_lt_spec, le_zero_spec.
  destruct (Prim2SF x) as [s|s| |s m e]; try destruct s; cbn; congruence.
Qed.

Lemma eq_zero_not_pos x : (x =? 0) = true -> (0 <? x) = false.
Proof.
  rewrite zero_lt_spec, eq_zero_spec.
  destruct (Prim2SF x) as [s|s| |s m e]; try destruct s; cbn; congruence.
Qed.

Lemma not_neg_spec x : (x <? 0) = negb (SFnot_neg (Prim2SF x)).
Proof.
  rewrite FloatAxioms.ltb_spec. change (Prim2SF 0) with (S754_zero false).
  destruct (Prim2SF x) as [s|s| |s m e]; try destruct s; reflexivity.
Qed.

Lemma not_neg_iff x : not_neg x <-> SFnot_neg (Prim2SF x) = true.
Proof. unfold not_neg. rewrite not_neg_spec. destruct (SFnot_neg _); cbn; intuition congruence. Qed.

Lemma round_aux_not_neg mx ex lx :
  SFnot_neg (binary_round_aux prec emax false mx ex lx) = true.
Proof.
  unfold binary_round_aux.
  destruct (shr_fexp prec emax mx ex lx) as [mrs e'].
  destruct (shr_fexp prec emax _ e' loc_Exact) as [mrs' e''].
  destruct (shr_m mrs'); try reflexivity.
  destruct (Z.leb _ _); reflexivity.
Qed.


Lemma SFmul_not_neg x y :
  SFnot_neg x = true -> SFnot_neg y = true -> SFnot_neg (SFmul prec emax x y) = true.
Proof.
  destruct x as [sx|sx| |sx mx ex], y as [sy|sy| |sy my ey]; cbn;
    try destruct sx; try destruct sy; cbn; try congruence; intros _ _.
  apply round_aux_not_neg.
Qed.




Lemma mul_not_neg x y : not_neg x -> not_neg y -> not_neg (x * y).
Proof. rewrite !not_neg_iff, FloatAxioms.mul_spec. apply SFmul_not_neg. Qed.



Lemma pos_not_neg x : (0 <? x) = true -> not_neg x.
Proof.
  rewrite FloatAxioms.ltb_spec, not_neg_iff. change (Prim2SF 0) with (S754_zero false).
  destruct (Prim2SF x) as [s|s| |s m e]; try destruct s; cbn; congruence.
Qed.




End FloatOrder.

(** The valuation engine and the scorer. *)
Section ValuationProofs.
Local Open Scope string_scope.
Local Open Scope float_scope.
Import PyFloat.

Lemma graham_model_eq lpa vpa :
  graham_model lpa vpa =
    Ok (if (0 <? lpa) && (0 <? vpa)
        then round2 (PrimFloat.sqrt (22.5 * lpa * vpa)) else 0).
Proof.
  unfold graham_model.
  destruct (0 <? lpa) eqn:Hl; [|reflexivity].
  destruct (0 <? vpa) eqn:Hv; [|reflexivity].
  cbn [andb]. unfold PyFloat.sqrt.
  assert (H : (22.5 * lpa * vpa <? 0) = false).
  { apply mul_not_neg; [apply mul_not_neg; [reflexivity|]|]; auto using pos_not_neg. }
  rewrite H. reflexivity.
Qed.

Lemma ddm_model_eq cotacao div_yield roe lpa :
  ddm_model cotacao div_yield roe lpa =
    Ok (if ddm_preconditions cotacao div_yield roe lpa
        then ddm_value cotacao div_yield roe lpa else 0).
Proof.
  unfold ddm_model, ddm_preconditions, ddm_value, truediv.
  destruct (0 <? cotacao); [|reflexivity].
  destruct (0 <? div_yield); [|reflexivity].
  destruct (0 <? roe); [|reflexivity].
  destruct (lpa =? 0) eqn:Hl; [reflexivity|].
  cbn [andb negb mbind result_bind].
  destruct (0 <=? _); [|reflexivity].
  destruct (_ <=? 1); [|reflexivity].
  cbn [andb].
  destruct (_ <? 0.12); [|reflexivity].
  destruct (0 <=? _); [|reflexivity].
  cbn [andb].
  destruct (1e-6 <? _) eqn:Hd; [|reflexivity].
  rewrite (above_small_not_zero _ Hd). reflexivity.
Qed.


Lemma get_float_cases data k :
  k <> name_key ->
  (exists f, get_float data k = Ok f) \/
  (get_float data k = Raise TypeError /\ ~ well_typed data).
Proof.
  intros Hk. unfold get_float.
  destruct (data !! k) as [[f|s]|] eqn:E; cbn; eauto.
  right. split; [reflexivity|]. intros H. exact (Hk (H k _ E)).
Qed.

Ltac read_float data k :=
  let f := fresh "f" in let E := fresh "E" in let Hbad := fresh "Hbad" in
  destruct (get_float_cases data k) as [[f E]|[E Hbad]];
  [ discriminate | rewrite E; cbn [mbind result_bind]
  | rewrite E; cbn [mbind result_bind]; solve [auto] ].

Lemma calculate_fair_price_cases data :
  match calculate_fair_price data with
  | Ok res =>
      exists lpa vpa cotacao roe div_yield liq,
        get_float data "lucro_por_acao" = Ok lpa /\
        get_float data "valor_patrimonial_acao" = Ok vpa /\
        get_float data "cotacao_atual" = Ok cotacao /\
        get_float data "roe" = Ok roe /\
        get_float data "dividend_yield" = Ok div_yield /\
        get_float data "liquidez_corrente" = Ok liq /\
        res = fair_prices_of lpa vpa cotacao roe div_yield liq
  | Raise e => e = TypeError /\ ~ well_typed data
  end.
Proof.
  unfold calculate_fair_price.
  read_float data "lucro_por_acao".
  read_float data "valor_patrimonial_acao".
  read_float data "cotacao_atual".
  read_float data "roe".
  read_float data "dividend_yield".
  rewrite graham_model_eq, ddm_model_eq. cbn [mbind result_bind].
  read_float data "liquidez_corrente".
  repeat eexists; eauto.
Qed.

Section Lookups.

Variables lpa vpa cotacao roe div_yield liq : float.
Let res := fair_prices_of lpa vpa cotacao roe div_yield liq.

Lemma lookup_graham :
  res !! "graham" = Some (if (0 <? lpa) && (0 <? vpa)
                          then round2 (PrimFloat.sqrt (22.5 * lpa * vpa)) else 0).
Proof. reflexivity. Qed.

Lemma lookup_ddm :
  res !! "ddm" = Some (if ddm_preconditions cotacao div_yield roe lpa
                       then ddm_value cotacao div_yield roe lpa else 0).
Proof. reflexivity. Qed.

Lemma lookup_pe : res !! "pe_adjusted" = Some (pe_adjusted_model roe liq lpa).
Proof. reflexivity. Qed.

Lemma lookup_pvp : res !! "pvp_adjusted" = Some (pvp_adjusted_model roe vpa).
Proof. reflexivity. Qed.


Lemma lookup_other k :
  k ∉ ["graham"; "ddm"; "pe_adjusted"; "pvp_adjusted"; "average"] -> res !! k = None.
Proof.
  intros Hk. unfold res, fair_prices_of, models_of.
  rewrite !lookup_insert_ne by set_solver. apply lookup_empty.
Qed.


End Lookups.

Lemma float_diff (x y : float) (p : float -> bool) : p x <> p y -> x <> y.
Proof. congruence. Qed.



Lemma SFcompare_antisym x y :
  SFcompare y x = CompOpp <$> SFcompare x y.
Proof.
  destruct x as [sx|sx| |sx mx ex], y as [sy|sy| |sy my ey];
    cbn; try destruct sx; try destruct sy; cbn; try reflexivity.
  all: rewrite (Z.compare_antisym ex ey);
    pose proof (Pos.compare_cont_antisym mx my Eq) as Hm; cbn in Hm; rewrite <- Hm;
    destruct (ex ?= ey)%Z; cbn; try reflexivity;
    destruct (Pos.compare_cont Eq mx my); reflexivity.
Qed.

Lemma lt_not_le x y : (x <? y) = true -> (y <=? x) = false.
Proof.
  rewrite FloatAxioms.ltb_spec, FloatAxioms.leb_spec. unfold SFltb, SFleb.
  rewrite (SFcompare_antisym (Prim2SF x) (Prim2SF y)).
  destruct (SFcompare (Prim2SF x) (Prim2SF y)) as [[]|]; cbn; congruence.
Qed.

Lemma le_not_lt x y : (x <=? y) = true -> (y <? x) = false.
Proof.
  intros H. destruct (y <? x) eqn:E; [|reflexivity].
  apply lt_not_le in E. congruence.
Qed.

Lemma ddm_failure_preconditions c y r l :
  ddm_failure c y r l = true -> ddm_preconditions c y r l = false.
Proof.
  unfold ddm_failure, ddm_preconditions. cbv zeta.
  rewrite !orb_true_iff.
  intros [[[[[[[H|H]|H]|H]|H]|H]|H]|H];
    try apply le_not_lt in H; try apply lt_not_le in H;
    try (apply negb_true_iff, andb_false_iff in H as [H|H]);
    rewrite H; repeat (rewrite ?andb_false_r; cbn [andb negb]); reflexivity.
Qed.

(** C6: the Graham model is [round(sqrt(22.5 * lpa * vpa), 2)] when the
    earnings per share and the book value per share are both above zero,
    and 0.0 in every other case, so in particular when either of them is
    zero or negative: no absolute value is taken.  [calculate_fair_price]
    stores that value under "graham"; it raises only [TypeError], and only
    on a record that is not well typed.  Earnings of 2.0 and a book value
    of 10.0 give 21.21. *)
Theorem graham_model_spec :
  (forall data,
     match calculate_fair_price data with
     | Ok res =>
         exists lpa vpa,
           get_float data "lucro_por_acao" = Ok lpa /\
           get_float data "valor_patrimonial_acao" = Ok vpa /\
           res !! "graham" =
             Some (if (0 <? lpa) && (0 <? vpa)
                   then round2 (PrimFloat.sqrt (22.5 * lpa * vpa)) else 0)
     | Raise e => e = TypeError /\ ~ well_typed data
     end) /\
  (forall lpa vpa,
     graham_model lpa vpa =
       Ok (if (0 <? lpa) && (0 <? vpa)
           then round2 (PrimFloat.sqrt (22.5 * lpa * vpa)) else 0)) /\
  (forall lpa vpa,
     (lpa <=? 0) || (vpa <=? 0) = true -> graham_model lpa vpa = Ok 0) /\
  graham_model 2.0 10.0 = Ok 21.21.
Proof.
  split; [|split; [|split]].
  - intros data. pose proof (calculate_fair_price_cases data) as H.
    destruct (calculate_fair_price data) as [res|e]; [|exact H].
    destruct H as (lpa & vpa & c & r & y & l & H1 & H2 & _ & _ & _ & _ & ->).
    exists lpa, vpa. split; [assumption|]. split; [assumption|]. apply lookup_graham.
  - apply graham_model_eq.
  - intros lpa vpa H. rewrite graham_model_eq.
    apply orb_true_iff in H as [H|H]; apply le_zero_not_pos in H; rewrite H;
      rewrite ?andb_false_r; reflexivity.
  - vm_compute. reflexivity.
Qed.

(** C4: the dividend-discount model never raises.  It returns
    [ddm_value], that is [cotacao * div_yield * (1 + g) / (0.12 - g)]
    clamped to [0, 5 * cotacao] and rounded to two decimals, when all of
    [ddm_preconditions] hold, and 0.0 otherwise.  Each way of failing a
    precondition ([ddm_failure]: price, yield or return on equity at or
    below zero, earnings of zero, payout outside [0, 1], growth outside
    [0, 0.12), or [0.12 - g] at or below 1e-6) gives 0.0, and so does a
    price of zero whatever the other inputs.  [calculate_fair_price]
    stores the value of the model under "ddm". *)
Theorem ddm_model_spec :
  (forall cotacao div_yield roe lpa,
     ddm_model cotacao div_yield roe lpa =
       Ok (if ddm_preconditions cotacao div_yield roe lpa
           then ddm_value cotacao div_yield roe lpa else 0)) /\
  (forall cotacao div_yield roe lpa,
     ddm_failure cotacao div_yield roe lpa = true ->
     ddm_model cotacao div_yield roe lpa = Ok 0) /\
  (forall cotacao div_yield roe lpa,
     (cotacao =? 0) = true -> ddm_model cotacao div_yield roe lpa = Ok 0) /\
  (forall data,
     match calculate_fair_price data with
     | Ok res =>
         exists cotacao div_yield roe lpa,
           get_float data "cotacao_atual" = Ok cotacao /\
           get_float data "dividend_yield" = Ok div_yield /\
           get_float data "roe" = Ok roe /\
           get_float data "lucro_por_acao" = Ok lpa /\
           Ok (value_of res "ddm") = ddm_model cotacao div_yield roe lpa
     | Raise e => e = TypeError /\ ~ well_typed data
     end).
Proof.
  split; [|split; [|split]].
  - apply ddm_model_eq.
  - intros c y r l H. rewrite ddm_model_eq, (ddm_failure_preconditions _ _ _ _ H).
    reflexivity.
  - intros c y r l H. rewrite ddm_model_eq. unfold ddm_preconditions.
    rewrite (eq_zero_not_pos _ H). reflexivity.
  - intros data. pose proof (calculate_fair_price_cases data) as H.
    destruct (calculate_fair_price data) as [res|e]; [|exact H].
    destruct H as (lpa & vpa & c & r & y & l & H1 & H2 & H3 & H4 & H5 & _ & ->).
    exists c, y, r, lpa. do 4 (split; [assumption|]).
    rewrite ddm_model_eq. reflexivity.
Qed.


Lemma scenario_result :
  calculate_fair_price scenario = Ok (fair_prices_of 1.5 12.0 10.0 0.18 0.0 2.0).
Proof. reflexivity. Qed.

(** C2, with the values the code computes: on the scenario record the
    engine returns graham 20.12, ddm 0.0, pe_adjusted 23.25, pvp_adjusted
    24.0 (a return on equity of 0.18 is above 0.15, so the book value of
    12.0 is doubled) and average 22.26, the mean of the three models above
    zero with the weights 0.3, 0.3 and 0.2 divided by their sum 0.8. *)
Theorem scenario_fair_prices :
  exists res,
    calculate_fair_price scenario = Ok res /\
    res !! "graham" = Some 20.12 /\
    res !! "ddm" = Some 0.0 /\
    res !! "pe_adjusted" = Some 23.25 /\
    res !! "pvp_adjusted" = Some 24.0 /\
    res !! "average" = Some 22.26 /\
    22.26 = round2 (20.12 * (0.3 / 0.8) + 23.25 * (0.3 / 0.8) + 24.0 * (0.2 / 0.8)) /\
    0.8 = PyFloat.sum [0.3; 0.3; 0.2].
Proof.
  exists (fair_prices_of 1.5 12.0 10.0 0.18 0.0 2.0).
  split; [exact scenario_result|]. repeat split; vm_compute; reflexivity.
Qed.

(** The scenario does not give 18.0 under "pvp_adjusted". *)
Lemma scenario_pvp_is_not_18 :
  ~ exists res,
      calculate_fair_price scenario = Ok res /\
      res !! "graham" = Some 20.12 /\
      res !! "ddm" = Some 0.0 /\
      res !! "pe_adjusted" = Some 23.25 /\
      res !! "pvp_adjusted" = Some 18.0 /\
      res !! "average" =
        Some (round2 (20.12 * (0.3 / 0.8) + 23.25 * (0.3 / 0.8) + 18.0 * (0.2 / 0.8))).
Proof.
  intros (res & H & _ & _ & _ & Hpvp & _).
  assert (Hc : match calculate_fair_price scenario with
               | Ok m => value_of m "pvp_adjusted" =? 18.0
               | Raise _ => false
               end = true).
  { rewrite H. unfold value_of. rewrite Hpvp. reflexivity. }
  vm_compute in Hc. discriminate.
Qed.










Lemma SFltb_trans x y z :
  SFltb x y = true -> SFltb y z = true -> SFltb x z = true.
Proof.
  unfold SFltb.
  destruct x as [sx|sx| |sx mx ex], y as [sy|sy| |sy my ey], z as [sz|sz| |sz mz ez];
    cbn; try destruct sx; try destruct sy; try destruct sz; cbn; try congruence.
  all: change (Pos.compare_cont Eq) with Pos.compare;
    destruct (Z.compare_spec ex ey), (Z.compare_spec ey ez), (Z.compare_spec ex ez);
    cbn; try congruence; try lia;
    destruct (Pos.compare_spec mx my), (Pos.compare_spec my mz), (Pos.compare_spec mx mz);
    cbn; try congruence; lia.
Qed.

Lemma ltb_trans x y z : (x <? y) = true -> (y <? z) = true -> (x <? z) = true.
Proof. rewrite !FloatAxioms.ltb_spec. apply SFltb_trans. Qed.

Lemma margin_tier_as_coded m st :
  margin_tier m st =
    if 0.30 <? m then recommend "COMPRAR FORTE" 3 st
    else if 0.15 <? m then recommend "COMPRAR" 2 st
    else if 0.05 <? m then recommend "COMPRAR FRACO" 1 st
    else if m <? -0.15 then recommend "VENDER FRACO" (-1) st
    else st.
Proof.
  unfold margin_tier.
  destruct (0.30 <? m); [reflexivity|].
  destruct (0.15 <? m); [reflexivity|].
  destruct (0.05 <? m); [reflexivity|].
  destruct (m <? -0.15) eqn:E; [reflexivity|].
  destruct (m <? -0.30) eqn:E1.
  { rewrite (ltb_trans m (-0.30) (-0.15) E1 eq_refl) in E. discriminate. }
  destruct (m <? -0.50) eqn:E2.
  { rewrite (ltb_trans m (-0.50) (-0.15) E2 eq_refl) in E. discriminate. }
  reflexivity.
Qed.

Lemma risk_recommend r d st : risk_of (recommend r d st) = risk_of st.
Proof. destruct st; reflexivity. Qed.

Lemma risk_strength n d st : risk_of (strength n d st) = risk_of st.
Proof. destruct st; reflexivity. Qed.

Lemma risk_weakness n d st : risk_of (weakness n d st) = risk_of st.
Proof. destruct st; reflexivity. Qed.

Create Rewrite HintDb risk.
#[local] Hint Rewrite risk_recommend risk_strength risk_weakness : risk.

Ltac risk_cases :=
  repeat match goal with
         | |- context [if ?b then _ else _] => destruct b
         end;
  autorewrite with risk; reflexivity.

Lemma risk_margin_tier m st : risk_of (margin_tier m st) = risk_of st.
Proof. unfold margin_tier. risk_cases. Qed.

Lemma risk_roe x st : risk_of (roe_rule x st) = risk_of st.
Proof. unfold roe_rule. risk_cases. Qed.

Lemma risk_roic x st : risk_of (roic_rule x st) = risk_of st.
Proof. unfold roic_rule. risk_cases. Qed.

Lemma risk_pl x st : risk_of (pl_rule x st) = risk_of st.
Proof. unfold pl_rule. risk_cases. Qed.

Lemma risk_debt x st : risk_of (debt_rule x st) = risk_of st.
Proof. unfold debt_rule. risk_cases. Qed.

Lemma risk_liquidity x st : risk_of (liquidity_rule x st) = risk_of st.
Proof. unfold liquidity_rule. risk_cases. Qed.

Lemma risk_growth x st : risk_of (growth_rule x st) = risk_of st.
Proof. unfold growth_rule. risk_cases. Qed.

#[local] Hint Rewrite risk_margin_tier risk_roe risk_roic risk_pl risk_debt
  risk_liquidity risk_growth : risk.

(** The valuation part never divides by zero. *)
Lemma valuation_rule_eq cotacao_atual preco_justo_medio st :
  valuation_rule cotacao_atual preco_justo_medio st =
    Ok (if (0 <? preco_justo_medio) && (0 <? cotacao_atual) then
          let discount_margin := (preco_justo_medio - cotacao_atual) / cotacao_atual in
          strength ("Potencial de valorização (vs Cotação Atual): "
                      +:+ format_pct2 discount_margin) 0
            (margin_tier discount_margin st)
        else if (cotacao_atual <=? 0) && (0 <? preco_justo_medio) then
          recommend "ANALISAR (Cotação Anormal)" 0 st
        else if (preco_justo_medio <=? 0) && (0 <? cotacao_atual) then
          weakness "Média dos preços justos (positivos) não é conclusiva ou é zero." 0
            (recommend "CAUTELA" 0 st)
        else st).
Proof.
  unfold valuation_rule, truediv.
  destruct (0 <? preco_justo_medio); cbn [andb].
  - destruct (0 <? cotacao_atual) eqn:E.
    + rewrite (pos_not_zero _ E). reflexivity.
    + destruct (_ && _); [reflexivity|]. destruct (_ && _); reflexivity.
  - destruct (_ && _); [reflexivity|]. destruct (_ && _); reflexivity.
Qed.

Lemma risk_valuation c p st :
  exists st', valuation_rule c p st = Ok st' /\ risk_of st' = risk_of st.
Proof.
  rewrite valuation_rule_eq. eexists. split; [reflexivity|]. cbv zeta. risk_cases.
Qed.

Lemma display_name_cases data ticker :
  (exists s, display_name data ticker = Ok s) \/
  (display_name data ticker = Raise TypeError /\ ~ well_typed data).
Proof.
  unfold display_name.
  destruct (data !! "nome_empresa_completo") as [[f|s]|] eqn:E; eauto.
  right. split; [reflexivity|]. intros H. exact (H _ _ E eq_refl).
Qed.

(** C10: whatever the record, the fair prices and the ticker, the analysis
    that [generate_investment_analysis] returns has the risk level "MÉDIO";
    the function raises only [TypeError], and only on a record that is not
    well typed. *)
Theorem risk_level_is_constant data fair_prices ticker_input_original :
  match generate_investment_analysis data fair_prices ticker_input_original with
  | Ok analysis => risk_level analysis = "MÉDIO"
  | Raise e => e = TypeError /\ ~ well_typed data
  end.
Proof.
  unfold generate_investment_analysis.
  read_float data "cotacao_atual".
  destruct (risk_valuation f (default 0 (fair_prices !! "average"))
              (Analysis "NEUTRO" "MÉDIO" [] [] "" 0, 0%Z)) as (st & -> & Hst).
  cbn [mbind result_bind].
  read_float data "roe". read_float data "roic". read_float data "preco_lucro".
  read_float data "divida_bruta_patrimonio". read_float data "liquidez_corrente".
  read_float data "cres_receita_5a".
  match goal with
  | |- context [let '(_, _) := ?s in _] =>
      assert (Hr : risk_of s = "MÉDIO") by (autorewrite with risk; exact Hst);
      destruct s as [a sc]
  end.
  destruct (display_name_cases data ticker_input_original) as [[s ->]|[-> Hbad]];
    cbn [mbind result_bind]; [exact Hr|auto].
Qed.

(** C1, as the code is written: the margin rule tests [< -0.15] before
    [< -0.30] and [< -0.50], so it has five outcomes and not seven: above
    0.30 COMPRAR FORTE (+3), above 0.15 COMPRAR (+2), above 0.05 COMPRAR
    FRACO (+1), below -0.15 VENDER FRACO (-1), otherwise no change; VENDER
    (-2) and VENDER FORTE (-3) are never given.  A price of 10.0 against a
    fair value of 4.0 is a margin of -60%, below -0.50, and the analysis is
    VENDER FRACO with score -1, the strength note stating the margin. *)
Theorem margin_tiers_as_coded :
  (forall discount_margin st,
     margin_tier discount_margin st =
       if 0.30 <? discount_margin then recommend "COMPRAR FORTE" 3 st
       else if 0.15 <? discount_margin then recommend "COMPRAR" 2 st
       else if 0.05 <? discount_margin then recommend "COMPRAR FRACO" 1 st
       else if discount_margin <? -0.15 then recommend "VENDER FRACO" (-1) st
       else st) /\
  ((4.0 - 10.0) / 10.0 <? -0.50) = true /\
  (exists fair_prices,
     calculate_fair_price overpriced = Ok fair_prices /\
     fair_prices !! "average" = Some 4.0 /\
     generate_investment_analysis overpriced fair_prices "abcd4" =
       Ok (Analysis "VENDER FRACO" "MÉDIO"
             ["Potencial de valorização (vs Cotação Atual): -60.00%";
              "Endividamento (Dív. Bruta/PL) Baixo: 0.00"]
             ["Liquidez Corrente Baixa: 0.00"]
             "ABCD4 (ABCD4): VENDER FRACO (Score -1)" (-1))).
Proof.
  split; [apply margin_tier_as_coded|]. split; [reflexivity|].
  exists (fair_prices_of 0 4.0 10.0 0 0 0).
  split; [reflexivity|]. split; vm_compute; reflexivity.
Qed.

(** A loss with a positive book value: the Graham model is skipped. *)
Lemma graham_model_spec_witness :
  (-1.0 <=? 0) || (10.0 <=? 0) = true /\ graham_model (-1.0) 10.0 = Ok 0.
Proof.
  split; [reflexivity|].
  apply (proj1 (proj2 (proj2 graham_model_spec))). reflexivity.
Defined.

(** A dividend above the earnings: the payout ratio is 1.25. *)
Lemma ddm_model_spec_witness :
  ddm_failure 10.0 0.05 0.1 0.4 = true /\ ddm_model 10.0 0.05 0.1 0.4 = Ok 0.
Proof.
  split; [reflexivity|].
  apply (proj1 (proj2 ddm_model_spec)). reflexivity.
Defined.



End ValuationProofs.

(** The normaliser is total. *)
Section NormaliserProofs.
Local Open Scope string_scope.
Import PyStr.

Lemma ascii_dec_eqb {A} a b (x y : A) :
  (if ascii_dec a b then x else y) = if Ascii.eqb a b then x else y.
Proof.
  destruct (ascii_dec a b) as [->|n].
  - rewrite Ascii.eqb_refl. reflexivity.
  - apply Ascii.eqb_neq in n. rewrite n. reflexivity.
Qed.

Lemma empty_app s : "" +:+ s = s.
Proof. reflexivity. Qed.

Lemma prefix1 a c r : String.prefix (String a "") (String c r) = Ascii.eqb a c.
Proof. cbn. rewrite ascii_dec_eqb. destruct r, (Ascii.eqb a c); reflexivity. Qed.

Lemma replace1_cons a new c r :
  replace (String a "") new (String c r) =
    if Ascii.eqb a c then new +:+ replace (String a "") new r
    else String c (replace (String a "") new r).
Proof. unfold replace. cbn [replace_from]. rewrite prefix1. reflexivity. Qed.

Lemma kept_cons c r : kept (String c r) = kept_char c (kept r).
Proof.
  unfold kept, kept_char. rewrite replace1_cons. rewrite (Ascii.eqb_sym "." c).
  destruct (Ascii.eqb c ".") eqn:Ed; [reflexivity|].
  rewrite replace1_cons. rewrite (Ascii.eqb_sym "," c).
  destruct (Ascii.eqb c ",") eqn:Ec.
  - reflexivity.
  - cbn [filter]. reflexivity.
Qed.

Lemma kept_char_dropped c rest :
  Ascii.eqb c "," = false -> keep_numeric c = false -> kept_char c rest = rest.
Proof.
  intros Hc Hk. unfold kept_char. rewrite Hc, Hk. destruct (Ascii.eqb c "."); reflexivity.
Qed.

Lemma space_dropped c :
  is_space c = true -> Ascii.eqb c "," = false /\ keep_numeric c = false /\ Ascii.eqb c "%" = false.
Proof. destruct c as [[] [] [] [] [] [] [] []]; vm_compute; intuition congruence. Qed.

Lemma kept_space c r : is_space c = true -> kept (String c r) = kept r.
Proof.
  intros H. rewrite kept_cons. apply space_dropped in H as (? & ? & ?).
  apply kept_char_dropped; assumption.
Qed.

Lemma kept_lstrip s : kept (lstrip s) = kept s.
Proof.
  induction s as [|c r IH]; [reflexivity|]. cbn [lstrip].
  destruct (is_space c) eqn:E; [|reflexivity]. rewrite IH, kept_space; auto.
Qed.

Lemma kept_rstrip s : kept (rstrip s) = kept s.
Proof.
  induction s as [|c r IH]; [reflexivity|]. cbn [rstrip].
  destruct (rstrip r) as [|c' r'] eqn:E.
  - destruct (is_space c) eqn:Es.
    + rewrite kept_space, <- IH by assumption. reflexivity.
    + rewrite !kept_cons, <- IH. reflexivity.
  - rewrite (kept_cons c r), <- IH, <- kept_cons. reflexivity.
Qed.

Lemma kept_strip s : kept (strip s) = kept s.
Proof. unfold strip. rewrite kept_rstrip. apply kept_lstrip. Qed.

Lemma kept_replace_pct s : kept (replace "%" "" s) = kept s.
Proof.
  induction s as [|c r IH]; [reflexivity|]. rewrite replace1_cons.
  destruct (Ascii.eqb "%" c) eqn:E.
  - apply Ascii.eqb_eq in E as <-. rewrite empty_app, IH.
    rewrite kept_cons. reflexivity.
  - rewrite !kept_cons, IH. reflexivity.
Qed.

Lemma prefix_RS c r :
  String.prefix "R$" (String c r) = true -> c = "R"%char /\ exists r', r = String "$" r'.
Proof.
  change (String.prefix "R$" (String c r))
    with (if ascii_dec "R" c then String.prefix "$" r else false).
  destruct (ascii_dec "R" c) as [<-|]; [|discriminate].
  destruct r as [|c' r']; [discriminate|].
  rewrite prefix1. intros E. apply Ascii.eqb_eq in E as <-. eauto.
Qed.

Lemma kept_replace_from_RS s k :
  kept (replace_from "R$" "" k s) = kept (sdrop k s).
Proof.
  revert k. induction s as [|c r IH]; intros k.
  - destruct k; reflexivity.
  - destruct k as [|k]; cbn [replace_from sdrop]; [|apply IH].
    destruct (String.prefix "R$" (String c r)) eqn:E.
    + apply prefix_RS in E as (-> & r' & ->). rewrite empty_app. cbn [String.length Nat.pred].
      rewrite IH. cbn [sdrop]. rewrite !kept_cons. reflexivity.
    + rewrite !kept_cons, IH. reflexivity.
Qed.

Lemma kept_replace_RS s : kept (replace "R$" "" s) = kept s.
Proof. apply (kept_replace_from_RS s 0). Qed.

(** The percent marker. *)
Lemma contains_pct_cons c r :
  contains "%" (String c r) = Ascii.eqb c "%" || contains "%" r.
Proof.
  cbn [contains]. rewrite prefix1, (Ascii.eqb_sym "%" c). reflexivity.
Qed.

Lemma pct_lstrip s : contains "%" (lstrip s) = contains "%" s.
Proof.
  induction s as [|c r IH]; [reflexivity|]. cbn [lstrip].
  destruct (is_space c) eqn:E; [|reflexivity].
  rewrite IH, contains_pct_cons. apply space_dropped in E as (_ & _ & ->). reflexivity.
Qed.

Lemma pct_rstrip s : contains "%" (rstrip s) = contains "%" s.
Proof.
  induction s as [|c r IH]; [reflexivity|]. cbn [rstrip].
  destruct (rstrip r) as [|c' r'] eqn:E.
  - rewrite contains_pct_cons, <- IH. destruct (is_space c) eqn:Es.
    + apply space_dropped in Es as (_ & _ & ->). reflexivity.
    + rewrite contains_pct_cons. reflexivity.
  - rewrite (contains_pct_cons c r), <- IH, <- contains_pct_cons. reflexivity.
Qed.

Lemma pct_strip s : contains "%" (strip s) = contains "%" s.
Proof. unfold strip. rewrite pct_rstrip. apply pct_lstrip. Qed.

Lemma pct_replace_from_RS s k :
  contains "%" (replace_from "R$" "" k s) = contains "%" (sdrop k s).
Proof.
  revert k. induction s as [|c r IH]; intros k.
  - destruct k; reflexivity.
  - destruct k as [|k]; cbn [replace_from sdrop]; [|apply IH].
    destruct (String.prefix "R$" (String c r)) eqn:E.
    + apply prefix_RS in E as (-> & r' & ->). rewrite empty_app. cbn [String.length Nat.pred].
      rewrite IH. cbn [sdrop]. rewrite !contains_pct_cons. reflexivity.
    + rewrite !contains_pct_cons, IH. reflexivity.
Qed.

Lemma pct_replace_RS s : contains "%" (replace "R$" "" s) = contains "%" s.
Proof. apply (pct_replace_from_RS s 0). Qed.

Lemma to_float_cases s :
  (exists v, to_float s = Ok v) \/ to_float s = Raise ValueError.
Proof.
  unfold to_float.
  destruct (match s with String "-"%char r => (true, r) | _ => (false, s) end) as [neg body].
  destruct (split_dot body) as [ip fp].
  destruct (_ && _); eauto.
Qed.

Lemma normalize_kept t :
  normalize (Some t) =
    match to_float (kept t) with
    | Ok v => if contains "%" t then (v / 100)%float else v
    | Raise _ => 0%float
    end.
Proof.
  unfold normalize. fold (kept (replace "%" "" (replace "R$" "" t))).
  rewrite kept_replace_pct, kept_replace_RS.
  destruct (decide (t = "" \/ t = "-")) as [[->| ->]|]; reflexivity.
Qed.

Lemma clean_value_normalize text : clean_value text = Ok (normalize text).
Proof.
  destruct text as [t|]; [|reflexivity].
  rewrite normalize_kept. unfold clean_value.
  set (s := strip t).
  assert (Hs : kept s = kept t) by apply kept_strip.
  destruct (decide (s = "-" \/ s = "")) as [[E|E]|_].
  { rewrite <- Hs, E. reflexivity. }
  { rewrite <- Hs, E. reflexivity. }
  set (c1 := if contains "R$" s then strip (replace "R$" "" s) else s).
  assert (H1 : kept c1 = kept t).
  { unfold c1. destruct (contains "R$" s); [|exact Hs].
    rewrite kept_strip, kept_replace_RS. exact Hs. }
  assert (P1 : contains "%" c1 = contains "%" t).
  { unfold c1. destruct (contains "R$" s).
    - rewrite pct_strip, pct_replace_RS. apply pct_strip.
    - apply pct_strip. }
  rewrite P1.
  set (c2 := if contains "%" t then strip (replace "%" "" c1) else c1).
  assert (H2 : kept c2 = kept t).
  { unfold c2. destruct (contains "%" t); [|exact H1].
    rewrite kept_strip, kept_replace_pct. exact H1. }
  fold (kept c2). rewrite H2.
  destruct (decide (kept t = "" \/ kept t = "-")) as [[E|E]|_].
  { rewrite E. reflexivity. }
  { rewrite E. reflexivity. }
  destruct (to_float_cases (kept t)) as [[v ->]| ->]; [|reflexivity].
  cbn. destruct (contains "%" t); reflexivity.
Qed.

End NormaliserProofs.

(** The table extractor and the assembler. *)
Section ExtractorProofs.
Local Open Scope string_scope.
Import Soup.

Lemma store_pair_eq is_dre st l v :
  store_pair is_dre st l v = Ok (store is_dre st (l, v)).
Proof.
  unfold store_pair, store. destruct st as [order data]. cbn [fst snd].
  destruct (key_for is_dre order l) as [order' key].
  destruct (data !! key); [reflexivity|].
  rewrite clean_value_normalize. reflexivity.
Qed.

Lemma store_cell_eq is_dre st c :
  store_cell is_dre st c =
    Ok match cell_pair c.1 c.2 with
       | Some p => store is_dre st p
       | None => st
       end.
Proof.
  unfold store_cell. destruct (cell_pair c.1 c.2) as [[l v]|]; [|reflexivity].
  apply store_pair_eq.
Qed.

Lemma foldM_cells is_dre cells st :
  foldM (store_cell is_dre) st cells =
    Ok (stored is_dre st (omap (fun c : node * node => cell_pair c.1 c.2) cells)).
Proof.
  revert st. induction cells as [|c cells IH]; intros st; [reflexivity|].
  cbn [foldM]. rewrite store_cell_eq. cbn [mbind result_bind]. rewrite IH.
  cbn [omap list_omap]. destruct (cell_pair c.1 c.2); reflexivity.
Qed.

Lemma header_row_no_pairs idx row :
  is_header_row idx row (find_all (named_with_class "td" "label") row)
    (find_all (named_with_class "td" "data") row) = true ->
  row_pairs row = [].
Proof.
  unfold is_header_row, row_pairs.
  destruct (find_all (named_with_class "td" "label") row); [|discriminate].
  reflexivity.
Qed.

Lemma store_row_eq is_dre st idx row :
  store_row is_dre st (idx, row) = Ok (stored is_dre st (row_pairs row)).
Proof.
  unfold store_row.
  destruct (is_header_row _ _ _ _) eqn:E.
  - rewrite (header_row_no_pairs _ _ E). reflexivity.
  - apply foldM_cells.
Qed.

Lemma stored_app is_dre st p q :
  stored is_dre st (p ++ q) = stored is_dre (stored is_dre st p) q.
Proof. apply fold_left_app. Qed.

Lemma foldM_rows is_dre rows st k :
  foldM (store_row is_dre) st (imap (fun i => pair (k + i)%nat) rows) =
    Ok (stored is_dre st (concat (row_pairs <$> rows))).
Proof.
  revert st k. induction rows as [|row rows IH]; intros st k; [reflexivity|].
  cbn [imap foldM]. rewrite store_row_eq. cbn [mbind result_bind].
  rewrite (imap_ext _ (fun i => pair (S k + i)%nat)) by (intros i x _; cbn; f_equal; lia).
  rewrite IH. cbn [fmap list_fmap concat]. rewrite stored_app. reflexivity.
Qed.

Lemma extract_table_data_eq html_soup titles :
  _extract_table_data html_soup titles =
    Ok match find_table html_soup titles with
       | Some (found_table, title_text_found) =>
           (stored (bool_decide (title_text_found ∈ dre_titles)) ([], ∅)
              (table_pairs found_table)).2
       | None => ∅
       end.
Proof.
  unfold _extract_table_data.
  destruct (find_table html_soup titles) as [[table title]|]; [|reflexivity].
  rewrite (foldM_rows _ _ _ 0). reflexivity.
Qed.








Lemma headline_keys_differ l L :
  l ∈ dre_headlines -> L ∈ dre_headlines ->
  (l +:+ suffix_12m = L +:+ suffix_12m -> l = L) /\
  (l +:+ suffix_3m = L +:+ suffix_3m -> l = L) /\
  l +:+ suffix_3m <> L +:+ suffix_12m /\
  l +:+ suffix_12m <> L +:+ suffix_3m /\
  l <> L +:+ suffix_12m /\ l <> L +:+ suffix_3m.
Proof.
  unfold dre_headlines. rewrite !elem_of_cons, !elem_of_nil.
  intros [->|[->|[->|[]]]] [->|[->|[->|[]]]]; repeat split; done.
Qed.








Lemma num_at_insert data key f : num_at (<[key := PyNum f]> data) key.
Proof. exists f. apply lookup_insert_eq. Qed.

Lemma num_at_insert_num data key key' f :
  num_at data key -> num_at (<[key' := PyNum f]> data) key.
Proof.
  intros [g H]. destruct (decide (key' = key)) as [->|Hne].
  - apply num_at_insert.
  - exists g. rewrite lookup_insert_ne by exact Hne. exact H.
Qed.





Lemma foldM_indicators spans data entries :
  foldM (store_indicator spans) data entries =
    Ok (fold_left (indicator_step spans) entries data).
Proof.
  revert data. induction entries as [|[label key] entries IH]; intros data; [reflexivity|].
  cbn [foldM store_indicator]. rewrite clean_value_normalize. cbn [mbind result_bind].
  apply IH.
Qed.

Lemma indicator_steps_keep spans entries data key :
  num_at data key -> num_at (fold_left (indicator_step spans) entries data) key.
Proof.
  revert data. induction entries as [|e entries IH]; intros data H; [exact H|].
  apply IH, num_at_insert_num, H.
Qed.

Lemma indicator_steps_keep_value spans entries data key v :
  key ∉ entries.*2 -> data !! key = Some v ->
  fold_left (indicator_step spans) entries data !! key = Some v.
Proof.
  revert data. induction entries as [|e entries IH]; intros data Hk H; [exact H|].
  cbn [fmap list_fmap] in Hk. apply not_elem_of_cons in Hk as [Hk1 Hk2].
  apply IH; [exact Hk2|]. unfold indicator_step.
  rewrite lookup_insert_ne by congruence. exact H.
Qed.

Lemma indicator_steps_set spans entries data label key :
  NoDup entries.*2 -> (label, key) ∈ entries ->
  fold_left (indicator_step spans) entries data !! key
    = Some (PyNum (normalize (indicator_text spans label))).
Proof.
  revert data. induction entries as [|e entries IH]; intros data Hnd Hin.
  - apply elem_of_nil in Hin as [].
  - cbn [fmap list_fmap] in Hnd. apply NoDup_cons in Hnd as [Hfresh Hnd].
    cbn [fold_left]. apply elem_of_cons in Hin as [E|Hin].
    + subst e. apply indicator_steps_keep_value; [exact Hfresh|]. apply lookup_insert_eq.
    + apply IH; assumption.
Qed.


Lemma truediv_truthy a b :
  (if PyFloat.truthy b then PyFloat.truediv a b else Ok 0%float)
  = Ok (if PyFloat.truthy b then (a / b)%float else 0%float).
Proof.
  unfold PyFloat.truthy, PyFloat.truediv. destruct (b =? 0)%float; reflexivity.
Qed.

Lemma main_indicators_eq html_soup data :
  main_indicators html_soup data =
    Ok (fold_left
          (indicator_step (find_all_located (named_with_class "span" "txt") html_soup))
          main_indicators_mapping data).
Proof. apply foldM_indicators. Qed.






Lemma lookup_inserts_skip {V} (m : gmap string V) k k' v :
  k' <> k -> <[k' := v]> m !! k = m !! k.
Proof. intros. apply lookup_insert_ne. assumption. Qed.


End ExtractorProofs.

(** The extraction layer on concrete pages. *)
Section PageProofs.
Local Open Scope string_scope.
Import Soup PyStr.

Example sample_page_tables :
  find_table sample_page dre_titles
    = Some (statement_table, "Dados demonstrativos de resultados") /\
  table_pairs statement_table
    = [("Receita Líquida", "1.000"); ("Receita Líquida", "250");
       ("EBIT", "300"); ("EBIT", "-75")] /\
  find_table sample_page ["Dados Balanço Patrimonial"; "Balanço Patrimonial"] = None.
Proof. repeat split; vm_compute; reflexivity. Qed.

Example sample_page_record :
  match extract_financial_data sample_page "petr4" with
  | Ok data =>
      (fun k => data !! k) <$>
        ["cotacao_atual"; "dividend_yield"; "roe"; "ebit_12m"; "receita_liquida_12m";
         "lucro_liquido_12m"; "nome_empresa_completo"]
      = [Some (PyNum 10.0); Some (PyNum 0.125); Some (PyNum 0); Some (PyNum 300);
         Some (PyNum 1000); Some (PyNum 0); Some (PyText "PETROBRAS PN")]
  | Raise _ => False
  end.
Proof. vm_compute. reflexivity. Qed.






End PageProofs.

(** * Further properties

    The scorer and the valuation engine. *)
Section ScorerProofs.
Local Open Scope string_scope.
Local Open Scope float_scope.
Import PyFloat.

Lemma get_float_typed data k :
  well_typed data -> k <> name_key -> exists f, get_float data k = Ok f.
Proof.
  intros Hw Hk. destruct (get_float_cases data k Hk) as [H|[_ H]]; [exact H|].
  contradiction.
Qed.

Lemma generate_investment_analysis_cases data fair_prices ticker :
  match generate_investment_analysis data fair_prices ticker with
  | Ok a =>
      exists cotacao roe roic pl debt liq growth name,
        get_float data "cotacao_atual" = Ok cotacao /\
        get_float data "roe" = Ok roe /\
        get_float data "roic" = Ok roic /\
        get_float data "preco_lucro" = Ok pl /\
        get_float data "divida_bruta_patrimonio" = Ok debt /\
        get_float data "liquidez_corrente" = Ok liq /\
        get_float data "cres_receita_5a" = Ok growth /\
        display_name data ticker = Ok name /\
        let st := indicator_rules roe roic pl debt liq growth
                    (valuation_outcome cotacao (value_of fair_prices "average")
                       (Analysis "NEUTRO" "MÉDIO" [] [] "" 0, 0%Z)) in
        let final_score := Z.max (Z.min st.2 10) (-10) in
        a = Analysis (recommendation st.1) (risk_level st.1)
              (strengths st.1) (weaknesses st.1)
              (upper ticker +:+ " (" +:+ name +:+ "): "
                 +:+ recommendation st.1 +:+ " (Score " +:+ int_text final_score +:+ ")")
              final_score
  | Raise e => e = TypeError /\ ~ well_typed data
  end.
Proof.
  unfold generate_investment_analysis.
  destruct (get_float_cases data "cotacao_atual") as [[c Ec]|[E Hbad]];
    [discriminate| |rewrite E; cbn [mbind result_bind]; auto].
  rewrite Ec. cbn [mbind result_bind].
  rewrite valuation_rule_eq. cbn [mbind result_bind].
  fold (value_of fair_prices "average").
  fold (valuation_outcome c (value_of fair_prices "average")
          (Analysis "NEUTRO" "MÉDIO" [] [] "" 0, 0%Z)).
  set (st0 := valuation_outcome _ _ _) in *.
  destruct (get_float_cases data "roe") as [[roe E1]|[E Hbad]];
    [discriminate| |rewrite E; cbn [mbind result_bind]; auto].
  rewrite E1. cbn [mbind result_bind].
  destruct (get_float_cases data "roic") as [[roic E2]|[E Hbad]];
    [discriminate| |rewrite E; cbn [mbind result_bind]; auto].
  rewrite E2. cbn [mbind result_bind].
  destruct (get_float_cases data "preco_lucro") as [[pl E3]|[E Hbad]];
    [discriminate| |rewrite E; cbn [mbind result_bind]; auto].
  rewrite E3. cbn [mbind result_bind].
  destruct (get_float_cases data "divida_bruta_patrimonio") as [[debt E4]|[E Hbad]];
    [discriminate| |rewrite E; cbn [mbind result_bind]; auto].
  rewrite E4. cbn [mbind result_bind].
  destruct (get_float_cases data "liquidez_corrente") as [[liq E5]|[E Hbad]];
    [discriminate| |rewrite E; cbn [mbind result_bind]; auto].
  rewrite E5. cbn [mbind result_bind].
  destruct (get_float_cases data "cres_receita_5a") as [[growth E6]|[E Hbad]];
    [discriminate| |rewrite E; cbn [mbind result_bind]; auto].
  rewrite E6. cbn [mbind result_bind].
  fold (indicator_rules roe roic pl debt liq growth st0).
  destruct (indicator_rules roe roic pl debt liq growth st0) as [a sc] eqn:Est.
  destruct (display_name_cases data ticker) as [[name En]|[En Hbad]];
    rewrite En; cbn [mbind result_bind]; [|auto].
  exists c, roe, roic, pl, debt, liq, growth, name.
  repeat (split; [assumption || reflexivity|]). cbv zeta. fold st0. rewrite Est.
  reflexivity.
Qed.



Lemma strength_noted n d st : strength n d st = noted [n] [] d st.
Proof. destruct st as [a sc]. unfold strength, noted. cbn. rewrite app_nil_r. reflexivity. Qed.

Lemma weakness_noted n d st : weakness n d st = noted [] [n] d st.
Proof. destruct st as [a sc]. unfold weakness, noted. cbn. rewrite app_nil_r. reflexivity. Qed.

Lemma same_noted st : st = noted [] [] 0 st.
Proof.
  destruct st as [[r k s w m c] sc]. unfold noted. cbn. rewrite !app_nil_r, Z.add_0_r.
  reflexivity.
Qed.

Ltac rule_cases :=
  repeat match goal with
         | |- context [if ?b then _ else _] => destruct b
         end;
  [ eexists _, _, _; split;
    [ first [apply strength_noted | apply weakness_noted | apply same_noted]
    | unfold one_note; first
        [ left; repeat split; reflexivity
        | right; left; eexists; repeat split; (reflexivity || lia)
        | right; right; eexists; repeat split; (reflexivity || lia) ] ] .. ].

Lemma roe_rule_noted x st : exists s w d, roe_rule x st = noted s w d st /\ one_note s w d.
Proof. unfold roe_rule. rule_cases. Qed.

Lemma roic_rule_noted x st : exists s w d, roic_rule x st = noted s w d st /\ one_note s w d.
Proof. unfold roic_rule. rule_cases. Qed.

Lemma pl_rule_noted x st : exists s w d, pl_rule x st = noted s w d st /\ one_note s w d.
Proof. unfold pl_rule. rule_cases. Qed.

Lemma debt_rule_noted x st : exists s w d, debt_rule x st = noted s w d st /\ one_note s w d.
Proof. unfold debt_rule. rule_cases. Qed.

Lemma liquidity_rule_noted x st :
  exists s w d, liquidity_rule x st = noted s w d st /\ one_note s w d.
Proof. unfold liquidity_rule. rule_cases. Qed.

Lemma growth_rule_noted x st :
  exists s w d, growth_rule x st = noted s w d st /\ one_note s w d.
Proof. unfold growth_rule. rule_cases. Qed.

Lemma noted_bound n s w d st :
  one_note s w d -> notes_bound n st -> notes_bound (S n) (noted s w d st).
Proof.
  intros H (Hn & Hs & Hw). unfold notes_bound, noted. cbn [fst snd strengths weaknesses].
  rewrite !length_app.
  destruct H as [(-> & -> & ->)|[(x & -> & -> & Hd)|(x & -> & -> & Hd)]]; cbn [length].
  - rewrite !app_nil_r. repeat split; [lia|intros H; specialize (Hs H); lia
                                       |intros H; specialize (Hw H); lia].
  - rewrite !app_nil_r. repeat split; [lia| |intros H; specialize (Hw H); lia].
    intros H. apply app_eq_nil in H as [_ H]. discriminate.
  - rewrite !app_nil_r. repeat split; [lia|intros H; specialize (Hs H); lia|].
    intros H. apply app_eq_nil in H as [_ H]. discriminate.
Qed.

Lemma noted_recommendation s w d st :
  recommendation (noted s w d st).1 = recommendation st.1.
Proof. reflexivity. Qed.

Lemma indicator_rules_bound n roe roic pl debt liq growth st :
  notes_bound n st ->
  notes_bound (6 + n) (indicator_rules roe roic pl debt liq growth st) /\
  recommendation (indicator_rules roe roic pl debt liq growth st).1 = recommendation st.1.
Proof.
  intros H. unfold indicator_rules.
  destruct (roe_rule_noted roe st) as (s1 & w1 & d1 & -> & H1).
  destruct (roic_rule_noted roic (noted s1 w1 d1 st)) as (s2 & w2 & d2 & -> & H2).
  destruct (pl_rule_noted pl (noted s2 w2 d2 (noted s1 w1 d1 st)))
    as (s3 & w3 & d3 & -> & H3).
  destruct (debt_rule_noted debt (noted s3 w3 d3 (noted s2 w2 d2 (noted s1 w1 d1 st))))
    as (s4 & w4 & d4 & -> & H4).
  destruct (liquidity_rule_noted liq
              (noted s4 w4 d4 (noted s3 w3 d3 (noted s2 w2 d2 (noted s1 w1 d1 st)))))
    as (s5 & w5 & d5 & -> & H5).
  destruct (growth_rule_noted growth
              (noted s5 w5 d5
                 (noted s4 w4 d4 (noted s3 w3 d3 (noted s2 w2 d2 (noted s1 w1 d1 st))))))
    as (s6 & w6 & d6 & -> & H6).
  split; [|reflexivity].
  repeat (apply noted_bound; [assumption|]). exact H.
Qed.

Lemma valuation_outcome_bound c m :
  notes_bound 1 (valuation_outcome c m start) /\
  recommendation (valuation_outcome c m start).1 ∈ recommendations.
Proof.
  unfold valuation_outcome, start. rewrite margin_tier_as_coded.
  repeat match goal with
         | |- context [if ?b then _ else _] => destruct b
         end;
    (split; [unfold notes_bound; cbn; repeat split; (lia || discriminate)
            |unfold recommendations; cbn [recommendation fst strength weakness recommend];
             repeat first [apply list_elem_of_here | apply list_elem_of_further]]).
Qed.

Lemma strengths_noted s w d st : strengths (noted s w d st).1 = (strengths st.1 ++ s)%list.
Proof. reflexivity. Qed.

Lemma weaknesses_noted s w d st :
  weaknesses (noted s w d st).1 = (weaknesses st.1 ++ w)%list.
Proof. reflexivity. Qed.

Lemma rule_keeps_notes (rule : scoring -> scoring) st :
  (exists s w d, rule st = noted s w d st /\ one_note s w d) ->
  recommendation (rule st).1 = recommendation st.1 /\
  (forall n, n ∈ strengths st.1 -> n ∈ strengths (rule st).1) /\
  (forall n, n ∈ weaknesses st.1 -> n ∈ weaknesses (rule st).1) /\
  (forall n, head (weaknesses st.1) = Some n -> head (weaknesses (rule st).1) = Some n).
Proof.
  intros (s & w & d & -> & _). split; [reflexivity|].
  rewrite strengths_noted, weaknesses_noted.
  split; [|split].
  - intros n H. apply elem_of_app. left. exact H.
  - intros n H. apply elem_of_app. left. exact H.
  - intros n H. destruct (weaknesses st.1); [discriminate|exact H].
Qed.

Lemma indicator_rules_keep roe roic pl debt liq growth st :
  recommendation (indicator_rules roe roic pl debt liq growth st).1 = recommendation st.1 /\
  (forall n, head (weaknesses st.1) = Some n ->
             head (weaknesses (indicator_rules roe roic pl debt liq growth st).1) = Some n).
Proof.
  unfold indicator_rules.
  set (s1 := roe_rule roe st). set (s2 := roic_rule roic s1). set (s3 := pl_rule pl s2).
  set (s4 := debt_rule debt s3). set (s5 := liquidity_rule liq s4).
  destruct (rule_keeps_notes (roe_rule roe) st (roe_rule_noted roe st)) as (R1 & _ & _ & W1).
  destruct (rule_keeps_notes (roic_rule roic) s1 (roic_rule_noted roic s1))
    as (R2 & _ & _ & W2).
  destruct (rule_keeps_notes (pl_rule pl) s2 (pl_rule_noted pl s2)) as (R3 & _ & _ & W3).
  destruct (rule_keeps_notes (debt_rule debt) s3 (debt_rule_noted debt s3))
    as (R4 & _ & _ & W4).
  destruct (rule_keeps_notes (liquidity_rule liq) s4 (liquidity_rule_noted liq s4))
    as (R5 & _ & _ & W5).
  destruct (rule_keeps_notes (growth_rule growth) s5 (growth_rule_noted growth s5))
    as (R6 & _ & _ & W6).
  fold s1 in R1, W1. fold s2 in R2, W2. fold s3 in R3, W3. fold s4 in R4, W4.
  fold s5 in R5, W5.
  split.
  - rewrite R6, R5, R4, R3, R2, R1. reflexivity.
  - intros n H. apply W6, W5, W4, W3, W2, W1, H.
Qed.

Lemma debt_rule_zero st :
  "Endividamento (Dív. Bruta/PL) Baixo: 0.00" ∈ strengths (debt_rule 0 st).1.
Proof.
  unfold debt_rule. change ((0 <=? 0) && (0 <? 0.5)) with true. cbv iota.
  change (format_f2 0) with "0.00". rewrite strength_noted, strengths_noted.
  apply elem_of_app. right. apply list_elem_of_here.
Qed.

Lemma liquidity_rule_zero st :
  "Liquidez Corrente Baixa: 0.00" ∈ weaknesses (liquidity_rule 0 st).1.
Proof.
  unfold liquidity_rule. change (2.0 <? 0) with false. cbv iota.
  change ((0 <? 1.0) && (0 <=? 0)) with true. cbv iota.
  change (format_f2 0) with "0.00". rewrite weakness_noted, weaknesses_noted.
  apply elem_of_app. right. apply list_elem_of_here.
Qed.

(** X1: The score stays within -10 and 10; the valuation and each of the six
    indicators leave at most one note, seven in all; an analysis with no
    strength has no score above zero, and one with no weakness has no score
    below -1 (the loss a margin under -15% brings, whose note is a
    strength). *)
Theorem score_goes_with_notes data fair_prices ticker :
  match generate_investment_analysis data fair_prices ticker with
  | Ok a =>
      (-10 <= score a <= 10)%Z /\
      (length (strengths a) + length (weaknesses a) <= 7)%nat /\
      (strengths a = [] -> (score a <= 0)%Z) /\
      (weaknesses a = [] -> (-1 <= score a)%Z)
  | Raise e => e = TypeError /\ ~ well_typed data
  end.
Proof.
  pose proof (generate_investment_analysis_cases data fair_prices ticker) as H.
  destruct (generate_investment_analysis data fair_prices ticker) as [a|e]; [|exact H].
  destruct H as (c & roe & roic & pl & debt & liq & growth & name & _ & _ & _ & _ & _ & _ & _ & _ & ->).
  cbv zeta. cbn [score strengths weaknesses].
  destruct (valuation_outcome_bound c (value_of fair_prices "average")) as [Hv _].
  destruct (indicator_rules_bound 1 roe roic pl debt liq growth _ Hv) as [(Hn & Hs & Hw) _].
  fold start. split; [lia|]. split; [exact Hn|]. split.
  - intros E. specialize (Hs E). lia.
  - intros E. specialize (Hw E). lia.
Qed.

Lemma score_goes_with_notes_witness :
  match generate_investment_analysis steady {["average" := 4.0]} "abcd4" with
  | Ok a => weaknesses a = [] /\ score a = (-1)%Z /\ (-1 <= score a)%Z
  | Raise _ => False
  end.
Proof.
  generalize (score_goes_with_notes steady {["average" := 4.0]} "abcd4").
  destruct (generate_investment_analysis steady {["average" := 4.0]} "abcd4") as [a|e] eqn:E.
  - intros (_ & _ & _ & H).
    assert (Hw : weaknesses a = []).
    { vm_compute in E. injection E as <-. reflexivity. }
    split; [exact Hw|]. split; [|exact (H Hw)].
    vm_compute in E. injection E as <-. reflexivity.
  - vm_compute in E. discriminate.
Defined.

(** X2: The analysis never recommends outside seven texts; "VENDER" and
    "VENDER FORTE", which the code writes, are not among them. *)
Theorem recommendation_is_one_of_seven data fair_prices ticker :
  match generate_investment_analysis data fair_prices ticker with
  | Ok a =>
      recommendation a ∈ recommendations /\
      recommendation a <> "VENDER" /\ recommendation a <> "VENDER FORTE"
  | Raise e => e = TypeError /\ ~ well_typed data
  end.
Proof.
  pose proof (generate_investment_analysis_cases data fair_prices ticker) as H.
  destruct (generate_investment_analysis data fair_prices ticker) as [a|e]; [|exact H].
  destruct H as (c & roe & roic & pl & debt & liq & growth & name & _ & _ & _ & _ & _ & _ & _ & _ & ->).
  cbv zeta. cbn [recommendation].
  fold start.
  destruct (indicator_rules_keep roe roic pl debt liq growth
              (valuation_outcome c (value_of fair_prices "average") start)) as [-> _].
  destruct (valuation_outcome_bound c (value_of fair_prices "average")) as [_ Hr].
  split; [exact Hr|].
  revert Hr. generalize (recommendation (valuation_outcome c (value_of fair_prices "average") start).1).
  intros r Hr. unfold recommendations in Hr.
  repeat (apply elem_of_cons in Hr as [->|Hr]; [split; discriminate|]).
  apply elem_of_nil in Hr. contradiction.
Qed.

(** X3: Without a margin to judge: a quote at or below zero against a fair value
    above zero gives "ANALISAR (Cotação Anormal)"; a fair value at or below
    zero against a quote above zero gives "CAUTELA" and opens the weaknesses
    with its note; with neither above zero the recommendation stays
    "NEUTRO".  In all three cases no margin note is written. *)
Theorem recommendation_without_margin data fair_prices ticker :
  match generate_investment_analysis data fair_prices ticker with
  | Ok a =>
      exists cotacao_atual,
        get_float data "cotacao_atual" = Ok cotacao_atual /\
        let preco_justo_medio := value_of fair_prices "average" in
        ((cotacao_atual <=? 0) = true -> (0 <? preco_justo_medio) = true ->
         recommendation a = "ANALISAR (Cotação Anormal)") /\
        ((preco_justo_medio <=? 0) = true -> (0 <? cotacao_atual) = true ->
         recommendation a = "CAUTELA" /\
         head (weaknesses a)
           = Some "Média dos preços justos (positivos) não é conclusiva ou é zero.") /\
        ((0 <? preco_justo_medio) = false -> (0 <? cotacao_atual) = false ->
         recommendation a = "NEUTRO")
  | Raise e => e = TypeError /\ ~ well_typed data
  end.
Proof.
  pose proof (generate_investment_analysis_cases data fair_prices ticker) as H.
  destruct (generate_investment_analysis data fair_prices ticker) as [a|e]; [|exact H].
  destruct H as (c & roe & roic & pl & debt & liq & growth & name & Hc & _ & _ & _ & _ & _ & _ & _ & ->).
  exists c. split; [exact Hc|]. cbv zeta. cbn [recommendation weaknesses].
  fold start.
  destruct (indicator_rules_keep roe roic pl debt liq growth
              (valuation_outcome c (value_of fair_prices "average") start)) as [-> Hw].
  set (m := value_of fair_prices "average") in *.
  split; [|split].
  - intros H1 H2. unfold valuation_outcome.
    rewrite (le_zero_not_pos _ H1), H1, H2. reflexivity.
  - intros H1 H2.
    assert (E : valuation_outcome c m start
                = weakness "Média dos preços justos (positivos) não é conclusiva ou é zero." 0
                    (recommend "CAUTELA" 0 start)).
    { unfold valuation_outcome.
      rewrite (le_zero_not_pos _ H1), H1, H2, (lt_not_le _ _ H2). reflexivity. }
    split; [rewrite E; reflexivity|]. apply Hw. rewrite E. reflexivity.
  - intros H1 H2. unfold valuation_outcome. rewrite H1, H2.
    rewrite !andb_false_r. reflexivity.
Qed.

Lemma recommendation_without_margin_witness :
  match generate_investment_analysis no_quote {["average" := 4.0]} "abcd4" with
  | Ok a => recommendation a = "ANALISAR (Cotação Anormal)"
  | Raise _ => False
  end /\
  match generate_investment_analysis no_earnings {["average" := 0.0]} "abcd4" with
  | Ok a => recommendation a = "CAUTELA"
  | Raise _ => False
  end.
Proof.
  split.
  - generalize (recommendation_without_margin no_quote {["average" := 4.0]} "abcd4").
    destruct (generate_investment_analysis no_quote {["average" := 4.0]} "abcd4")
      as [a|e] eqn:E; [|vm_compute in E; discriminate].
    intros (c & Hc & H & _). apply H.
    + change (get_float no_quote "cotacao_atual") with (Ok 0) in Hc.
      assert (c = 0) as -> by congruence. reflexivity.
    + reflexivity.
  - generalize (recommendation_without_margin no_earnings {["average" := 0.0]} "abcd4").
    destruct (generate_investment_analysis no_earnings {["average" := 0.0]} "abcd4")
      as [a|e] eqn:E; [|vm_compute in E; discriminate].
    intros (c & Hc & _ & H & _). apply H.
    + reflexivity.
    + change (get_float no_earnings "cotacao_atual") with (Ok 10.0) in Hc.
      assert (c = 10.0) as -> by congruence. reflexivity.
Defined.

(** X4: An indicator that reads 0.0, as one not found on the page does, is
    scored like any other value: a debt ratio of 0.0 is listed as a
    strength and a current ratio of 0.0 as a weakness. *)
Theorem unfound_indicators_are_scored data fair_prices ticker :
  match generate_investment_analysis data fair_prices ticker with
  | Ok a =>
      (get_float data "divida_bruta_patrimonio" = Ok 0 ->
       "Endividamento (Dív. Bruta/PL) Baixo: 0.00" ∈ strengths a) /\
      (get_float data "liquidez_corrente" = Ok 0 ->
       "Liquidez Corrente Baixa: 0.00" ∈ weaknesses a)
  | Raise e => e = TypeError /\ ~ well_typed data
  end.
Proof.
  pose proof (generate_investment_analysis_cases data fair_prices ticker) as H.
  destruct (generate_investment_analysis data fair_prices ticker) as [a|e]; [|exact H].
  destruct H as (c & roe & roic & pl & debt & liq & growth & name & _ & _ & _ & _ & Hd & Hl & _ & _ & ->).
  cbv zeta. cbn [strengths weaknesses]. unfold indicator_rules.
  set (s3 := pl_rule pl _). set (s4 := debt_rule debt s3). set (s5 := liquidity_rule liq s4).
  destruct (rule_keeps_notes (liquidity_rule liq) s4 (liquidity_rule_noted liq s4))
    as (_ & S5 & _ & _).
  destruct (rule_keeps_notes (growth_rule growth) s5 (growth_rule_noted growth s5))
    as (_ & S6 & W6 & _).
  fold s5 in S5. split.
  - intros E. rewrite Hd in E. assert (debt = 0) as Ez by congruence.
    apply S6, S5. unfold s4. rewrite Ez. apply debt_rule_zero.
  - intros E. rewrite Hl in E. assert (liq = 0) as Ez by congruence.
    apply W6. unfold s5. rewrite Ez. apply liquidity_rule_zero.
Qed.

Lemma unfound_indicators_are_scored_witness :
  match generate_investment_analysis ∅ ∅ "abcd4" with
  | Ok a =>
      "Endividamento (Dív. Bruta/PL) Baixo: 0.00" ∈ strengths a /\
      "Liquidez Corrente Baixa: 0.00" ∈ weaknesses a
  | Raise _ => False
  end.
Proof.
  generalize (unfound_indicators_are_scored ∅ ∅ "abcd4").
  destruct (generate_investment_analysis ∅ ∅ "abcd4") as [a|e] eqn:E;
    [|vm_compute in E; discriminate].
  intros [H1 H2]. split; [apply H1|apply H2]; reflexivity.
Defined.

Lemma rule_keeps_first_strength (rule : scoring -> scoring) st :
  (exists s w d, rule st = noted s w d st /\ one_note s w d) ->
  forall n, head (strengths st.1) = Some n -> head (strengths (rule st).1) = Some n.
Proof.
  intros (s & w & d & -> & _) n H. rewrite strengths_noted.
  destruct (strengths st.1); [discriminate|exact H].
Qed.

Lemma indicator_rules_keep_first_strength roe roic pl debt liq growth st n :
  head (strengths st.1) = Some n ->
  head (strengths (indicator_rules roe roic pl debt liq growth st).1) = Some n.
Proof.
  intros H. unfold indicator_rules.
  set (s1 := roe_rule roe st). set (s2 := roic_rule roic s1). set (s3 := pl_rule pl s2).
  set (s4 := debt_rule debt s3). set (s5 := liquidity_rule liq s4).
  apply (rule_keeps_first_strength (growth_rule growth) s5 (growth_rule_noted growth s5)).
  apply (rule_keeps_first_strength (liquidity_rule liq) s4 (liquidity_rule_noted liq s4)).
  apply (rule_keeps_first_strength (debt_rule debt) s3 (debt_rule_noted debt s3)).
  apply (rule_keeps_first_strength (pl_rule pl) s2 (pl_rule_noted pl s2)).
  apply (rule_keeps_first_strength (roic_rule roic) s1 (roic_rule_noted roic s1)).
  apply (rule_keeps_first_strength (roe_rule roe) st (roe_rule_noted roe st)).
  exact H.
Qed.

Lemma margin_tier_start m :
  recommendation (margin_tier m start).1 = margin_recommendation m /\
  strengths (margin_tier m start).1 = [].
Proof.
  rewrite margin_tier_as_coded. unfold margin_recommendation, start.
  repeat match goal with
         | |- context [if ?b then _ else _] => destruct b
         end; split; reflexivity.
Qed.

(** X5: With a quote and a fair value above zero, the recommendation is the one
    the margin [(fair value - quote) / quote] earns: above 30% "COMPRAR
    FORTE", above 15% "COMPRAR", above 5% "COMPRAR FRACO", below -15%
    "VENDER FRACO", otherwise "NEUTRO"; and the strengths open with the
    note of the margin, also when the margin is negative. *)
Theorem recommendation_by_margin data fair_prices ticker :
  match generate_investment_analysis data fair_prices ticker with
  | Ok a =>
      exists cotacao_atual,
        get_float data "cotacao_atual" = Ok cotacao_atual /\
        let preco_justo_medio := value_of fair_prices "average" in
        let discount_margin := (preco_justo_medio - cotacao_atual) / cotacao_atual in
        ((0 <? preco_justo_medio) = true -> (0 <? cotacao_atual) = true ->
         recommendation a = margin_recommendation discount_margin /\
         head (strengths a)
           = Some ("Potencial de valorização (vs Cotação Atual): "
                     +:+ format_pct2 discount_margin))
  | Raise e => e = TypeError /\ ~ well_typed data
  end.
Proof.
  pose proof (generate_investment_analysis_cases data fair_prices ticker) as H.
  destruct (generate_investment_analysis data fair_prices ticker) as [a|e]; [|exact H].
  destruct H as (c & roe & roic & pl & debt & liq & growth & name & Hc & _ & _ & _ & _ & _ & _ & _ & ->).
  exists c. split; [exact Hc|]. cbv zeta. cbn [recommendation strengths].
  fold start. set (m := value_of fair_prices "average").
  intros H1 H2.
  destruct (indicator_rules_keep roe roic pl debt liq growth (valuation_outcome c m start))
    as [-> _].
  assert (E : valuation_outcome c m start
              = strength ("Potencial de valorização (vs Cotação Atual): "
                            +:+ format_pct2 ((m - c) / c)) 0
                  (margin_tier ((m - c) / c) start)).
  { unfold valuation_outcome. rewrite H1, H2. reflexivity. }
  destruct (margin_tier_start ((m - c) / c)) as [Hr Hs].
  split.
  - rewrite E, strength_noted. cbn [noted fst recommendation]. exact Hr.
  - apply indicator_rules_keep_first_strength.
    rewrite E, strength_noted, strengths_noted, Hs. reflexivity.
Qed.

Lemma recommendation_by_margin_witness :
  match generate_investment_analysis steady {["average" := 4.0]} "abcd4" with
  | Ok a =>
      recommendation a = "VENDER FRACO" /\
      head (strengths a) = Some "Potencial de valorização (vs Cotação Atual): -60.00%"
  | Raise _ => False
  end.
Proof.
  generalize (recommendation_by_margin steady {["average" := 4.0]} "abcd4").
  destruct (generate_investment_analysis steady {["average" := 4.0]} "abcd4")
    as [a|e] eqn:E; [|vm_compute in E; discriminate].
  intros (c & Hc & H).
  change (get_float steady "cotacao_atual") with (Ok 10.0) in Hc.
  assert (c = 10.0) as -> by congruence.
  destruct H as [Hr Hs]; [reflexivity|reflexivity|].
  split; [rewrite Hr; vm_compute; reflexivity|rewrite Hs; vm_compute; reflexivity].
Defined.

Lemma dom_fair_prices_of lpa vpa c r y l :
  dom (fair_prices_of lpa vpa c r y l) = list_to_set (C := gset string) model_keys.
Proof.
  unfold fair_prices_of, models_of. cbv zeta. rewrite !dom_insert_L, dom_empty_L.
  unfold model_keys. cbn [list_to_set foldr]. set_solver.
Qed.

(** X6: The fair-price set always holds the five model names and nothing else,
    whatever the record lacks, and it is computed from six fields of the
    record only: two records that agree on them get the same prices. *)
Theorem fair_prices_interface :
  (forall data,
     match calculate_fair_price data with
     | Ok res => dom res = list_to_set (C := gset string) model_keys
     | Raise e => e = TypeError /\ ~ well_typed data
     end) /\
  (forall data data' : record,
     Forall (fun key => data !! key = data' !! key) input_keys ->
     calculate_fair_price data = calculate_fair_price data').
Proof.
  split.
  - intros data. pose proof (calculate_fair_price_cases data) as H.
    destruct (calculate_fair_price data) as [res|e]; [|exact H].
    destruct H as (lpa & vpa & c & r & y & l & _ & _ & _ & _ & _ & _ & ->).
    apply dom_fair_prices_of.
  - intros data data' H. unfold input_keys in H.
    repeat (apply Forall_cons in H as [? H]).
    unfold calculate_fair_price, get_float.
    repeat match goal with E : data !! _ = data' !! _ |- _ => rewrite E; clear E end.
    reflexivity.
Qed.

Lemma fair_prices_interface_witness :
  calculate_fair_price (<["preco_lucro" := PyNum 8.0%float]> scenario)
  = calculate_fair_price scenario.
Proof.
  apply (proj2 fair_prices_interface). unfold input_keys.
  repeat (apply Forall_cons; split; [apply lookup_insert_ne; done|]). apply Forall_nil_2.
Defined.

Lemma pe_adjusted_model_eq roe liq lpa :
  pe_adjusted_model roe liq lpa = round2 (lpa * pe_multiplier roe liq).
Proof.
  unfold pe_adjusted_model, pe_multiplier, pe_score.
  destruct (0.15 <? roe); [|destruct (0.10 <? roe)]; destruct (1.5 <? liq); reflexivity.
Qed.

(** X7: The adjusted P/E is the earnings per share times one of five
    multipliers, 8, 11, 12.5, 14 or 15.5, chosen by return on equity and
    current ratio; the cap of 25 is never reached. *)
Theorem pe_multiplier_table data :
  match calculate_fair_price data with
  | Ok res =>
      exists lpa roe liquidez_corrente,
        get_float data "lucro_por_acao" = Ok lpa /\
        get_float data "roe" = Ok roe /\
        get_float data "liquidez_corrente" = Ok liquidez_corrente /\
        res !! "pe_adjusted" = Some (round2 (lpa * pe_multiplier roe liquidez_corrente)) /\
        pe_multiplier roe liquidez_corrente ∈ [8; 11; 12.5; 14; 15.5] /\
        (pe_multiplier roe liquidez_corrente <? 25) = true
  | Raise e => e = TypeError /\ ~ well_typed data
  end.
Proof.
  pose proof (calculate_fair_price_cases data) as H.
  destruct (calculate_fair_price data) as [res|e]; [|exact H].
  destruct H as (lpa & vpa & c & r & y & l & H1 & _ & _ & H4 & _ & H6 & ->).
  exists lpa, r, l. split; [exact H1|]. split; [exact H4|]. split; [exact H6|].
  split; [rewrite lookup_pe; f_equal; apply pe_adjusted_model_eq|].
  unfold pe_multiplier.
  destruct (0.15 <? r); [|destruct (0.10 <? r)]; destruct (1.5 <? l);
    (split; [repeat first [apply list_elem_of_here | apply list_elem_of_further]
            |reflexivity]).
Qed.

End ScorerProofs.

(** The tables, the assembled record and the three steps together. *)
Section TablesProofs.
Local Open Scope string_scope.
Local Open Scope list_scope.
Import Soup.

Lemma extract_table_data_table_of html_soup titles :
  _extract_table_data html_soup titles = Ok (table_of html_soup titles).
Proof. apply extract_table_data_eq. Qed.

Lemma find_table_title html_soup titles table title :
  find_table html_soup titles = Some (table, title) -> title ∈ titles.
Proof.
  induction titles as [|t rest IH]; cbn; [discriminate|].
  destruct (head _) as [span|].
  - destruct (climb_to _ _ _ _) as [el|].
    + intros [= _ <-]. apply list_elem_of_here.
    + intros H. apply list_elem_of_further, IH, H.
  - intros H. apply list_elem_of_further, IH, H.
Qed.










Lemma key_for_not_headline order l L :
  L ∈ dre_headlines -> (key_for true order l).2 <> L.
Proof.
  intros HL. unfold key_for. cbn [andb].
  destruct (bool_decide (l ∈ dre_headlines)) eqn:E.
  - apply bool_decide_eq_true_1 in E.
    destruct (headline_keys_differ L l HL E) as (_ & _ & _ & _ & H12 & H3).
    destruct (bool_decide (l ∈ order)); cbn [snd]; intros H; symmetry in H;
      [exact (H3 H)|exact (H12 H)].
  - apply bool_decide_eq_false_1 in E. cbn [snd]. intros ->. exact (E HL).
Qed.

Lemma store_headline_absent st pair L :
  L ∈ dre_headlines -> st.2 !! L = None -> (store true st pair).2 !! L = None.
Proof.
  intros HL H. unfold store.
  pose proof (key_for_not_headline st.1 pair.1 L HL) as Hk.
  destruct (key_for true st.1 pair.1) as [order key]. cbn [snd] in *.
  destruct (st.2 !! key); [exact H|]. rewrite lookup_insert_ne by exact Hk. exact H.
Qed.

Lemma stored_headline_absent st pairs L :
  L ∈ dre_headlines -> st.2 !! L = None -> (stored true st pairs).2 !! L = None.
Proof.
  intros HL. revert st. induction pairs as [|pair rest IH]; intros st H; [exact H|].
  change (stored true st (pair :: rest)) with (stored true (store true st pair) rest).
  apply IH, store_headline_absent; assumption.
Qed.

Lemma income_table_headline_absent html_soup L :
  L ∈ dre_headlines -> table_of html_soup dre_titles !! L = None.
Proof.
  intros HL. unfold table_of.
  destruct (find_table html_soup dre_titles) as [[table title]|] eqn:E; [|apply lookup_empty].
  apply find_table_title in E. rewrite (bool_decide_eq_true_2 _ E).
  apply stored_headline_absent; [exact HL|apply lookup_empty].
Qed.









Lemma income_statement_fields_value html_soup data :
  let dados_dre := table_of html_soup dre_titles in
  income_statement_fields html_soup data =
    Ok (<["receita_liquida_12m" :=
            PyNum (get2 dados_dre "Receita Líquida (Últimos 12 meses)" "Receita Líquida")]>
          (<["lucro_liquido_12m" :=
               PyNum (get2 dados_dre "Lucro Líquido (Últimos 12 meses)" "Lucro Líquido")]>
             (<["ebit_12m" := PyNum (get2 dados_dre "EBIT (Últimos 12 meses)" "EBIT")]>
                data))).
Proof.
  unfold income_statement_fields. rewrite extract_table_data_table_of. reflexivity.
Qed.

Lemma balance_sheet_fields_value html_soup data :
  let balanco_data := table_of html_soup balance_titles in
  balance_sheet_fields html_soup data =
    Ok (<["patrimonio_liquido_total" :=
            match balanco_data !! "Patrim. Líq" with
            | Some v => PyNum v
            | None => default (PyNum 0%float) (data !! "patrimonio_liquido_total")
            end]>
          (<["ativo_imobilizado_liquido" := PyNum (fixed_assets balanco_data)]>
             (<["passivo_circulante" :=
                  PyNum (default 0%float (balanco_data !! "Passivo Circulante"))]>
                (<["ativo_circulante" :=
                     PyNum (default 0%float (balanco_data !! "Ativo Circulante"))]> data)))).
Proof.
  cbv zeta. unfold balance_sheet_fields.
  change ["Dados Balanço Patrimonial"; "Balanço Patrimonial"] with balance_titles.
  rewrite extract_table_data_table_of. cbn [mbind result_bind].
  set (bal := table_of html_soup balance_titles).
  unfold item. rewrite lookup_insert_eq. cbn [mbind result_bind is_zero].
  unfold fixed_assets. cbv zeta.
  set (c := get2 bal "Ativo Imobilizado" "Imobilizado").
  destruct (c =? 0)%float.
  - rewrite insert_insert_eq. rewrite !(lookup_insert_ne _ _ "patrimonio_liquido_total") by done.
    reflexivity.
  - rewrite !(lookup_insert_ne _ _ "patrimonio_liquido_total") by done. reflexivity.
Qed.

Lemma truthy_ratio a b :
  (if PyFloat.truthy b then (a / b)%float else 0%float) = ratio_or_zero a b.
Proof. unfold PyFloat.truthy, ratio_or_zero. destruct (b =? 0)%float; reflexivity. Qed.

Lemma greenblatt_fields_value data ev ebit ac pc nfa :
  number_at data "enterprise_value" ev -> number_at data "ebit_12m" ebit ->
  number_at data "ativo_circulante" ac -> number_at data "passivo_circulante" pc ->
  number_at data "ativo_imobilizado_liquido" nfa ->
  greenblatt_fields data =
    Ok (<["greenblatt_return_on_capital" := PyNum (ratio_or_zero ebit (ac - pc + nfa))]>
          (<["greenblatt_earnings_yield" := PyNum (ratio_or_zero ebit ev)]>
             (<["greenblatt_ev_usado" := PyNum ev]>
                (<["greenblatt_ebit_usado" := PyNum ebit]>
                   (<["greenblatt_nfa_usado" := PyNum nfa]>
                      (<["greenblatt_nwc_calculado" := PyNum (ac - pc)]> data)))))).
Proof.
  unfold number_at. intros Hev Hebit Hac Hpc Hnfa.
  unfold greenblatt_fields, get_float, item_float, item.
  rewrite Hev, Hebit, Hac, Hpc, Hnfa. cbn [default from_option id as_float mbind result_bind].
  rewrite !truediv_truthy. cbn [mbind result_bind]. rewrite !truthy_ratio. reflexivity.
Qed.

Lemma indicator_steps_absent spans entries data key :
  key ∉ entries.*2 -> data !! key = None ->
  fold_left (indicator_step spans) entries data !! key = None.
Proof.
  revert data. induction entries as [|e entries IH]; intros data Hk H; [exact H|].
  cbn [fmap list_fmap] in Hk. apply not_elem_of_cons in Hk as [Hk1 Hk2].
  apply IH; [exact Hk2|]. unfold indicator_step.
  rewrite lookup_insert_ne by congruence. exact H.
Qed.

Ltac look :=
  unfold number_at; rewrite ?lookup_inserts_skip by done;
  first [apply lookup_insert_eq | assumption].

Lemma extract_financial_data_values html_soup ticker :
  let spans := find_all_located (named_with_class "span" "txt") html_soup in
  let dados_dre := table_of html_soup dre_titles in
  let balanco_data := table_of html_soup balance_titles in
  let ev := normalize (indicator_text spans "Valor da Firma") in
  let ebit := get2 dados_dre "EBIT (Últimos 12 meses)" "EBIT" in
  let ac := default 0%float (balanco_data !! "Ativo Circulante") in
  let pc := default 0%float (balanco_data !! "Passivo Circulante") in
  let nfa := fixed_assets balanco_data in
  exists data,
    extract_financial_data html_soup ticker = Ok data /\
    number_at data "enterprise_value" ev /\
    number_at data "ebit_12m" ebit /\
    number_at data "lucro_liquido_12m"
      (get2 dados_dre "Lucro Líquido (Últimos 12 meses)" "Lucro Líquido") /\
    number_at data "receita_liquida_12m"
      (get2 dados_dre "Receita Líquida (Últimos 12 meses)" "Receita Líquida") /\
    number_at data "ativo_circulante" ac /\
    number_at data "passivo_circulante" pc /\
    number_at data "ativo_imobilizado_liquido" nfa /\
    number_at data "patrimonio_liquido_total"
      (default 0%float (balanco_data !! "Patrim. Líq")) /\
    number_at data "greenblatt_nwc_calculado" (ac - pc) /\
    number_at data "greenblatt_nfa_usado" nfa /\
    number_at data "greenblatt_ebit_usado" ebit /\
    number_at data "greenblatt_ev_usado" ev /\
    number_at data "greenblatt_earnings_yield" (ratio_or_zero ebit ev) /\
    number_at data "greenblatt_return_on_capital" (ratio_or_zero ebit (ac - pc + nfa)).
Proof.
  intros spans dados_dre balanco_data ev ebit ac pc nfa.
  unfold extract_financial_data.
  rewrite main_indicators_eq. cbn [mbind result_bind]. fold spans.
  set (d1 := fold_left _ _ _).
  assert (Hev : d1 !! "enterprise_value" = Some (PyNum ev)).
  { apply (indicator_steps_set spans main_indicators_mapping ∅ "Valor da Firma").
    - apply (bool_decide_eq_true_1 _). vm_compute. reflexivity.
    - unfold main_indicators_mapping.
      repeat first [apply list_elem_of_here | apply list_elem_of_further]. }
  assert (Hpat : d1 !! "patrimonio_liquido_total" = None).
  { apply indicator_steps_absent; [|apply lookup_empty].
    apply (bool_decide_eq_true_1 _). vm_compute. reflexivity. }
  clearbody d1.
  rewrite income_statement_fields_value. cbn [mbind result_bind]. fold dados_dre. fold ebit.
  rewrite balance_sheet_fields_value. cbn [mbind result_bind]. fold balanco_data.
  fold ac pc nfa.
  rewrite !(lookup_insert_ne _ _ "patrimonio_liquido_total") by done. rewrite Hpat.
  unfold company_name_field.
  replace (match balanco_data !! "Patrim. Líq" with
           | Some v => PyNum v
           | None => default (PyNum 0%float) None
           end)
    with (PyNum (default 0%float (balanco_data !! "Patrim. Líq")))
    by (destruct (balanco_data !! "Patrim. Líq"); reflexivity).
  erewrite (greenblatt_fields_value _ ev ebit ac pc nfa); [|look..].
  eexists. split; [reflexivity|].
  repeat split; look.
Qed.

(** X11: In every record the assembler returns, the Greenblatt fields follow
    from the base fields: the working capital is current assets minus
    current liabilities, the fixed assets, EBIT and enterprise value are
    copied, the earnings yield is EBIT over enterprise value and the return
    on capital is EBIT over working capital plus fixed assets; a ratio whose
    divisor is zero is 0.0, and no division by zero is ever attempted. *)
Theorem greenblatt_fields_follow html_soup original_ticker_input :
  exists data ev ebit ac pc nfa,
    extract_financial_data html_soup original_ticker_input = Ok data /\
    number_at data "enterprise_value" ev /\
    number_at data "ebit_12m" ebit /\
    number_at data "ativo_circulante" ac /\
    number_at data "passivo_circulante" pc /\
    number_at data "ativo_imobilizado_liquido" nfa /\
    number_at data "greenblatt_nwc_calculado" (ac - pc) /\
    number_at data "greenblatt_nfa_usado" nfa /\
    number_at data "greenblatt_ebit_usado" ebit /\
    number_at data "greenblatt_ev_usado" ev /\
    number_at data "greenblatt_earnings_yield"
      (if (ev =? 0)%float then 0%float else (ebit / ev)%float) /\
    number_at data "greenblatt_return_on_capital"
      (if (ac - pc + nfa =? 0)%float then 0%float else (ebit / (ac - pc + nfa))%float).
Proof.
  destruct (extract_financial_data_values html_soup original_ticker_input)
    as (data & H & Hev & Hebit & _ & _ & Hac & Hpc & Hnfa & _ & G1 & G2 & G3 & G4 & G5 & G6).
  eexists data, _, _, _, _, _. split; [exact H|].
  repeat (split; [eassumption|]). exact G6.
Qed.

(** X12: The twelve-month figures of the record come from the income statement
    alone: each is the value stored under the label with the 12-month
    suffix, or 0.0 without one.  The statement never holds a bare headline
    label as a key, so the second default of the code is never taken. *)
Theorem income_fields_from_statement html_soup original_ticker_input :
  exists data dados_dre,
    extract_financial_data html_soup original_ticker_input = Ok data /\
    _extract_table_data html_soup dre_titles = Ok dados_dre /\
    Forall (fun label => dados_dre !! label = None) dre_headlines /\
    number_at data "ebit_12m"
      (default 0%float (dados_dre !! "EBIT (Últimos 12 meses)")) /\
    number_at data "lucro_liquido_12m"
      (default 0%float (dados_dre !! "Lucro Líquido (Últimos 12 meses)")) /\
    number_at data "receita_liquida_12m"
      (default 0%float (dados_dre !! "Receita Líquida (Últimos 12 meses)")).
Proof.
  destruct (extract_financial_data_values html_soup original_ticker_input)
    as (data & H & _ & Hebit & Hlucro & Hreceita & _).
  exists data, (table_of html_soup dre_titles).
  split; [exact H|]. split; [apply extract_table_data_table_of|].
  assert (Hnone : forall L, L ∈ dre_headlines -> table_of html_soup dre_titles !! L = None)
    by (intros L; apply income_table_headline_absent).
  split; [apply Forall_forall; exact Hnone|].
  unfold get2 in Hebit, Hlucro, Hreceita.
  rewrite (Hnone "EBIT") in Hebit
    by (apply (bool_decide_eq_true_1 _); vm_compute; reflexivity).
  rewrite (Hnone "Lucro Líquido") in Hlucro
    by (apply (bool_decide_eq_true_1 _); vm_compute; reflexivity).
  rewrite (Hnone "Receita Líquida") in Hreceita
    by (apply (bool_decide_eq_true_1 _); vm_compute; reflexivity).
  repeat split; assumption.
Qed.

(** X13: The balance-sheet figures of the record: current assets, current
    liabilities and equity are the values of their labels, 0.0 when the
    sheet has none; the fixed assets are the value of "Ativo Imobilizado"
    (of "Imobilizado" when that label is missing), unless that value is
    zero, when "Ativo Não Circulante" stands in for it. *)
Theorem balance_fields_from_sheet html_soup original_ticker_input :
  exists data balanco_data,
    extract_financial_data html_soup original_ticker_input = Ok data /\
    _extract_table_data html_soup balance_titles = Ok balanco_data /\
    number_at data "ativo_circulante"
      (default 0%float (balanco_data !! "Ativo Circulante")) /\
    number_at data "passivo_circulante"
      (default 0%float (balanco_data !! "Passivo Circulante")) /\
    number_at data "patrimonio_liquido_total"
      (default 0%float (balanco_data !! "Patrim. Líq")) /\
    number_at data "ativo_imobilizado_liquido"
      (let imobilizado :=
         default (default 0%float (balanco_data !! "Imobilizado"))
           (balanco_data !! "Ativo Imobilizado") in
       if (imobilizado =? 0)%float
       then default 0%float (balanco_data !! "Ativo Não Circulante")
       else imobilizado).
Proof.
  destruct (extract_financial_data_values html_soup original_ticker_input)
    as (data & H & _ & _ & _ & _ & Hac & Hpc & Hnfa & Hpat & _).
  exists data, (table_of html_soup balance_titles).
  split; [exact H|]. split; [apply extract_table_data_table_of|].
  repeat split; assumption.
Qed.


End TablesProofs.

(** The normaliser, character by character. *)
Section TextProofs.
Local Open Scope string_scope.
Import PyStr.

Lemma string_app_assoc (a b c : string) : (a +:+ b) +:+ c = a +:+ (b +:+ c).
Proof.
  induction a as [|x a IH]; [reflexivity|].
  change (String x ((a +:+ b) +:+ c) = String x (a +:+ (b +:+ c))). rewrite IH. reflexivity.
Qed.

Lemma kept_char_app c rest : kept_char c rest = kept_char c "" +:+ rest.
Proof.
  unfold kept_char. destruct (Ascii.eqb c "."); [reflexivity|].
  destruct (Ascii.eqb c ","); [reflexivity|]. destruct (keep_numeric c); reflexivity.
Qed.

Lemma kept_app a b : kept (a +:+ b) = kept a +:+ kept b.
Proof.
  induction a as [|x a IH]; [reflexivity|].
  change (String x a +:+ b) with (String x (a +:+ b)).
  rewrite !kept_cons, IH, (kept_char_app x (kept a +:+ kept b)), (kept_char_app x (kept a)).
  symmetry. apply string_app_assoc.
Qed.

Lemma contains_pct_app a b : contains "%" (a +:+ b) = contains "%" a || contains "%" b.
Proof.
  induction a as [|x a IH].
  - cbn [String.append]. destruct b; reflexivity.
  - change (String x a +:+ b) with (String x (a +:+ b)).
    rewrite !contains_pct_cons, IH. apply orb_assoc.
Qed.

Lemma insignificant_dropped c :
  significant c = false ->
  kept (String c "") = "" /\ contains "%" (String c "") = false.
Proof.
  unfold significant. intros H.
  apply orb_false_iff in H as [H H4]. apply orb_false_iff in H as [H H3].
  apply orb_false_iff in H as [H1 H2].
  split.
  - rewrite kept_cons. change (kept "") with "". unfold kept_char.
    unfold keep_numeric. rewrite H1, H2, H3.
    destruct (Ascii.eqb c "."); reflexivity.
  - rewrite contains_pct_cons, H4. reflexivity.
Qed.

Lemma normalize_ext t u :
  kept t = kept u -> contains "%" t = contains "%" u ->
  normalize (Some t) = normalize (Some u).
Proof. intros H1 H2. rewrite !normalize_kept, H1, H2. reflexivity. Qed.

(** X15: Only digits, commas, minus signs and percent signs count: any other
    character, a thousands point, a space or a letter, may stand anywhere
    in a text without changing its value. *)
Theorem insignificant_characters_are_ignored (a b : string) (c : ascii) :
  significant c = false ->
  clean_value (Some (a +:+ String c b)) = clean_value (Some (a +:+ b)).
Proof.
  intros H. rewrite !clean_value_normalize. f_equal.
  destruct (insignificant_dropped c H) as [Hk Hp].
  change (String c b) with (String c "" +:+ b).
  apply normalize_ext.
  - rewrite !kept_app, Hk. reflexivity.
  - rewrite !contains_pct_app, Hp. reflexivity.
Qed.

Lemma insignificant_characters_are_ignored_witness :
  significant "." = false /\
  clean_value (Some "1.5") = clean_value (Some "15") /\
  clean_value (Some "15") = Ok 15%float.
Proof.
  split; [reflexivity|]. split.
  - apply (insignificant_characters_are_ignored "1" "5" "."). reflexivity.
  - vm_compute. reflexivity.
Defined.

Lemma kept_pct : kept "%" = "".
Proof. reflexivity. Qed.

(** X16: A percent sign divides the value by 100, wherever it stands, and only
    once however many there are. *)
Theorem percent_divides_once (a b : string) :
  exists value,
    clean_value (Some (a +:+ b)) = Ok value /\
    clean_value (Some (a +:+ "%" +:+ b))
      = Ok (if contains "%" (a +:+ b) then value else (value / 100)%float).
Proof.
  exists (normalize (Some (a +:+ b))). split; [apply clean_value_normalize|].
  rewrite clean_value_normalize. f_equal. rewrite !normalize_kept.
  rewrite !kept_app, kept_pct, empty_app, !contains_pct_app.
  change (contains "%" "%") with true. rewrite orb_true_r. cbn [orb].
  destruct (to_float (kept a +:+ kept b)) as [v|e].
  - destruct (contains "%" a || contains "%" b); reflexivity.
  - destruct (contains "%" a || contains "%" b); reflexivity.
Qed.

Lemma occurrences_app c a b : occurrences c (a +:+ b) = (occurrences c a + occurrences c b)%nat.
Proof.
  induction a as [|x a IH]; [reflexivity|].
  change (String x a +:+ b) with (String x (a +:+ b)). cbn [occurrences]. rewrite IH. lia.
Qed.

Lemma digits_free c s :
  is_digit c = false -> forallb is_digit s = true -> occurrences c s = O.
Proof.
  intros Hc. induction s as [|x s IH]; [reflexivity|]. cbn [forallb occurrences].
  intros H. apply andb_true_iff in H as [Hx Hs]. rewrite (IH Hs).
  destruct (Ascii.eqb_spec x c) as [->|_]; [congruence|reflexivity].
Qed.

Lemma split_dot_occurrences c s :
  Ascii.eqb c "." = false ->
  occurrences c s
  = (occurrences c (split_dot s).1 + occurrences c (default "" (split_dot s).2))%nat.
Proof.
  intros Hc. induction s as [|x s IH]; [reflexivity|]. cbn [split_dot occurrences].
  destruct (Ascii.eqb_spec x ".") as [->|Hx].
  - cbn [fst snd default from_option id occurrences].
    rewrite Ascii.eqb_sym, Hc. reflexivity.
  - destruct (split_dot s) as [ip fp]. cbn [fst snd occurrences] in *. rewrite IH. lia.
Qed.

Lemma split_dot_points s :
  occurrences "." s
  = match (split_dot s).2 with
    | Some fp => S (occurrences "." fp)
    | None => O
    end /\ occurrences "." (split_dot s).1 = O.
Proof.
  induction s as [|x s [IH1 IH2]]; [split; reflexivity|]. cbn [split_dot occurrences].
  destruct (Ascii.eqb_spec x ".") as [->|Hx].
  - cbn [fst snd occurrences]. split; reflexivity.
  - destruct (split_dot s) as [ip fp]. cbn [fst snd occurrences] in *.
    apply Ascii.eqb_neq in Hx. rewrite Hx, IH1, IH2. split; reflexivity.
Qed.

(** A text [float] accepts has at most one point and no minus sign after
    its first character. *)
Lemma to_float_shape s v :
  to_float s = Ok v ->
  (occurrences "." s <= 1)%nat /\
  match s with
  | String _ r => occurrences "-" r = O
  | EmptyString => True
  end.
Proof.
  unfold to_float.
  set (sb := match s with String "-"%char r => (true, r) | _ => (false, s) end).
  assert (Hsb : occurrences "." s = occurrences "." sb.2 /\
                (occurrences "-" sb.2 = O ->
                 match s with String _ r => occurrences "-" r = O | EmptyString => True end)).
  { unfold sb. destruct s as [|x r]; [split; [reflexivity|trivial]|].
    destruct (Ascii.eqb_spec x "-") as [->|Hx].
    - cbn [snd occurrences]. split; [reflexivity|trivial].
    - assert (E : match x with
                  | "-"%char => (true, r)
                  | _ => (false, String x r)
                  end = (false, String x r)).
      { destruct x as [[] [] [] [] [] [] [] []]; try reflexivity. contradiction. }
      rewrite E. cbn [snd]. split; [reflexivity|].
      cbn [occurrences]. apply Ascii.eqb_neq in Hx. rewrite Hx. trivial. }
  destruct sb as [neg body]. cbn [snd] in Hsb. destruct Hsb as [Hp Hm].
  pose proof (split_dot_points body) as [P1 P2].
  pose proof (split_dot_occurrences "-" body eq_refl) as M.
  destruct (split_dot body) as [ip fp]. cbn [fst snd] in *.
  destruct (forallb is_digit ip && forallb is_digit (default "" fp)
            && negb (String.length ip + String.length (default "" fp) =? 0)%nat) eqn:E;
    [|discriminate].
  intros _. apply andb_true_iff in E as [E _]. apply andb_true_iff in E as [E1 E2].
  split.
  - rewrite Hp, P1. destruct fp as [fp|]; [|lia]. cbn [default from_option id] in E2.
    rewrite (digits_free "." fp eq_refl E2). lia.
  - apply Hm. rewrite M, (digits_free "-" ip eq_refl E1), (digits_free "-" _ eq_refl E2).
    reflexivity.
Qed.

Lemma kept_points t : occurrences "." (kept t) = occurrences "," t.
Proof.
  induction t as [|x t IH]; [reflexivity|].
  rewrite kept_cons. cbn [occurrences]. rewrite <- IH. unfold kept_char.
  destruct (Ascii.eqb_spec x ".") as [->|Hx]; [reflexivity|].
  destruct (Ascii.eqb_spec x ",") as [->|Hc]; [reflexivity|].
  destruct (keep_numeric x); [|reflexivity].
  cbn [occurrences]. apply Ascii.eqb_neq in Hx. rewrite Hx. reflexivity.
Qed.

Lemma normalize_unparsed t :
  to_float (kept t) = Raise ValueError -> normalize (Some t) = 0%float.
Proof. intros H. rewrite normalize_kept, H. reflexivity. Qed.

Lemma to_float_refused s :
  (forall v, to_float s <> Ok v) -> to_float s = Raise ValueError.
Proof.
  intros H. destruct (to_float_cases s) as [[v Hv]|Hr]; [|exact Hr].
  exfalso. exact (H v Hv).
Qed.

(** X17: A text with two decimal commas has no value: it normalises to 0.0. *)
Theorem two_commas_give_zero (a b c : string) :
  clean_value (Some (a +:+ "," +:+ b +:+ "," +:+ c)) = Ok 0%float.
Proof.
  rewrite clean_value_normalize. f_equal. apply normalize_unparsed, to_float_refused.
  intros v Hv. apply to_float_shape in Hv as [Hv _].
  rewrite kept_points, !occurrences_app in Hv.
  change (occurrences "," ",") with 1%nat in Hv. lia.
Qed.

(** X18: A minus sign after anything that counts (a digit, a comma, another
    minus sign) leaves the text without a value: it normalises to 0.0. *)
Theorem misplaced_minus_gives_zero (a b : string) :
  kept a <> "" ->
  clean_value (Some (a +:+ "-" +:+ b)) = Ok 0%float.
Proof.
  intros Ha. rewrite clean_value_normalize. f_equal.
  apply normalize_unparsed, to_float_refused.
  intros v Hv. apply to_float_shape in Hv as [_ Hv].
  rewrite !kept_app in Hv. change (kept "-") with "-" in Hv.
  destruct (kept a) as [|x r]; [contradiction|].
  change (String x r +:+ "-" +:+ kept b) with (String x (r +:+ "-" +:+ kept b)) in Hv.
  cbv beta iota in Hv. rewrite !occurrences_app in Hv.
  change (occurrences "-" "-") with 1%nat in Hv. lia.
Qed.

Lemma misplaced_minus_gives_zero_witness :
  kept "10" <> "" /\ clean_value (Some "10-20") = Ok 0%float.
Proof.
  split; [discriminate|].
  apply (misplaced_minus_gives_zero "10" "20"). discriminate.
Defined.

Lemma Prim2SF_injective x y : Prim2SF x = Prim2SF y -> x = y.
Proof.
  intros H. rewrite <- (FloatAxioms.SF2Prim_Prim2SF x), <- (FloatAxioms.SF2Prim_Prim2SF y), H.
  reflexivity.
Qed.

Lemma round_aux_opp s m e l :
  binary_round_aux prec emax (negb s) m e l = SFopp (binary_round_aux prec emax s m e l).
Proof.
  unfold binary_round_aux.
  destruct (shr_fexp prec emax m e l) as [mrs e'].
  destruct (shr_fexp prec emax _ e' loc_Exact) as [mrs' e''].
  destruct (shr_m mrs'); try reflexivity.
  destruct (Z.leb _ _); reflexivity.
Qed.

Lemma SFdiv_opp x my ey :
  SFdiv prec emax (SFopp x) (S754_finite false my ey)
  = SFopp (SFdiv prec emax x (S754_finite false my ey)).
Proof.
  destruct x as [s|s| |s m e]; cbn [SFopp SFdiv]; try reflexivity.
  - rewrite !xorb_false_r. reflexivity.
  - rewrite !xorb_false_r. reflexivity.
  - destruct (SFdiv_core_binary _ _ _ _ _ _) as [[q e'] l]. rewrite !xorb_false_r.
    apply round_aux_opp.
Qed.

Lemma opp_div_100 v : (- v / 100 = - (v / 100))%float.
Proof.
  apply Prim2SF_injective.
  rewrite FloatAxioms.div_spec, !FloatAxioms.opp_spec, FloatAxioms.div_spec.
  unfold SF64div. replace (Prim2SF 100) with (S754_finite false 7036874417766400 (-46))
    by (vm_compute; reflexivity).
  apply SFdiv_opp.
Qed.

Lemma of_ratio_opp n d :
  PyFloat.of_ratio true n d = (- PyFloat.of_ratio false n d)%float.
Proof.
  destruct n as [|p]; [reflexivity|]. unfold PyFloat.of_ratio, PyFloat.SF_of_ratio.
  cbn [SFdiv]. destruct (SFdiv_core_binary _ _ _ _ _ _) as [[q e] l]. cbn [xorb].
  change true with (negb false) at 1. rewrite round_aux_opp.
  pose proof (round_aux_not_neg q e l) as H.
  destruct (binary_round_aux prec emax false q e l) as [[]|[]| |[] m e'];
    (discriminate || reflexivity).
Qed.

Lemma to_float_unsigned s :
  String.prefix "-" s = false ->
  match s with
  | String "-"%char r => (true, r)
  | _ => (false, s)
  end = (false, s).
Proof.
  destruct s as [|x r]; [reflexivity|]. cbn [String.prefix].
  destruct (ascii_dec "-" x) as [<-|Hx].
  - destruct r; discriminate.
  - intros _. destruct x as [[] [] [] [] [] [] [] []]; try reflexivity. contradiction.
Qed.

Lemma to_float_minus s w :
  String.prefix "-" s = false -> to_float s = Ok w ->
  to_float (String "-" s) = Ok (- w)%float.
Proof.
  intros Hp. unfold to_float. rewrite (to_float_unsigned s Hp).
  destruct (split_dot s) as [ip fp].
  destruct (forallb is_digit ip && forallb is_digit (default "" fp)
            && negb (String.length ip + String.length (default "" fp) =? 0)%nat);
    [|discriminate].
  intros [= <-]. rewrite of_ratio_opp. reflexivity.
Qed.

(** X19: A minus sign put before a text that has a value, and no sign of its
    own, negates the value. *)
Theorem leading_minus_negates (t : string) (parsed : float) :
  to_float (kept t) = Ok parsed ->
  String.prefix "-" (kept t) = false ->
  exists value,
    clean_value (Some t) = Ok value /\
    clean_value (Some ("-" +:+ t)) = Ok (- value)%float.
Proof.
  intros Hv Hp. exists (normalize (Some t)). split; [apply clean_value_normalize|].
  rewrite clean_value_normalize. f_equal. rewrite !normalize_kept.
  change ("-" +:+ t) with (String "-" t).
  rewrite kept_cons, contains_pct_cons. change (Ascii.eqb "-" "%") with false.
  change (kept_char "-" (kept t)) with (String "-" (kept t)). cbn [orb].
  rewrite (to_float_minus _ _ Hp Hv), Hv.
  destruct (contains "%" t); [apply opp_div_100|reflexivity].
Qed.

Lemma leading_minus_negates_witness :
  clean_value (Some "12,5%") = Ok 0.125%float /\
  clean_value (Some "-12,5%") = Ok (-0.125)%float.
Proof.
  destruct (leading_minus_negates "12,5%" 12.5%float) as (v & H1 & H2).
  - vm_compute. reflexivity.
  - reflexivity.
  - assert (E : Ok v = Ok 0.125%float :> result float)
      by (rewrite <- H1; vm_compute; reflexivity).
    assert (Ev : v = 0.125%float) by congruence.
    rewrite Ev in H1, H2. split; [exact H1|exact H2].
Defined.

End TextProofs.

(** The ticker variants. *)
Section TickerProofs.
Local Open Scope string_scope.
Import PyStr.

Lemma upper_app a b : upper (a +:+ b) = upper a +:+ upper b.
Proof.
  induction a as [|x a IH]; [reflexivity|].
  change (String x a +:+ b) with (String x (a +:+ b)). cbn [upper]. rewrite IH. reflexivity.
Qed.

Lemma letter_upper c :
  is_letter c = true ->
  is_capital (upper_char c) = true /\ Ascii.eqb (upper_char c) "." = false.
Proof. destruct c as [[] [] [] [] [] [] [] []]; vm_compute; intros H; (discriminate || split; reflexivity). Qed.

Lemma digit_upper c :
  is_digit c = true -> upper_char c = c /\ Ascii.eqb c "." = false.
Proof. destruct c as [[] [] [] [] [] [] [] []]; vm_compute; intros H; (discriminate || split; reflexivity). Qed.

Lemma replace_SA_pointless u rest :
  occurrences "." u = O ->
  replace ".SA" "" (u +:+ rest) = u +:+ replace ".SA" "" rest.
Proof.
  induction u as [|x u IH]; intros H; [reflexivity|].
  cbn [occurrences] in H. destruct (Ascii.eqb_spec x ".") as [->|Hx]; [discriminate|].
  change (String x u +:+ rest) with (String x (u +:+ rest)).
  unfold replace. cbn [replace_from].
  assert (E : String.prefix ".SA" (String x (u +:+ rest)) = false).
  { cbn [String.prefix]. destruct (ascii_dec "." x) as [E|_]; [congruence|reflexivity]. }
  rewrite E. fold (replace ".SA" "" (u +:+ rest)). rewrite IH by exact H. reflexivity.
Qed.

Lemma endswith_pointless u : occurrences "." u = O -> endswith ".SA" u = false.
Proof.
  induction u as [|x u IH]; intros H; [reflexivity|].
  cbn [occurrences] in H. destruct (Ascii.eqb_spec x ".") as [->|Hx]; [discriminate|].
  cbn [endswith]. rewrite (IH H), orb_false_r.
  apply bool_decide_eq_false_2. intros [= E _]. contradiction.
Qed.

Lemma stock_code_upper t :
  stock_code t = true ->
  occurrences "." (upper t) = O /\ matches_b3 (upper t) = true.
Proof.
  destruct t as [|a [|b [|c [|d [|e r]]]]]; try discriminate.
  cbn [stock_code]. intros H.
  apply andb_true_iff in H as [H Hr]. apply andb_true_iff in H as [H He].
  apply andb_true_iff in H as [H Hd]. apply andb_true_iff in H as [H Hc].
  apply andb_true_iff in H as [Ha Hb].
  destruct (letter_upper a Ha) as [A1 A2]. destruct (letter_upper b Hb) as [B1 B2].
  destruct (letter_upper c Hc) as [C1 C2]. destruct (letter_upper d Hd) as [D1 D2].
  destruct (digit_upper e He) as [E1 E2].
  cbn [upper occurrences matches_b3]. rewrite A1, B1, C1, D1, A2, B2, C2, D2, E1, E2, He.
  destruct r as [|f [|g r]]; [split; reflexivity| |discriminate].
  destruct (digit_upper f Hr) as [F1 F2]. cbn [upper occurrences]. rewrite F1, F2, Hr.
  split; [reflexivity|]. cbn [andb]. change (at_end "") with true. apply orb_true_r.
Qed.

Lemma upper_suffix s :
  s ∈ sa_suffixes -> replace ".SA" "" (upper s) = "".
Proof.
  unfold sa_suffixes. intros H.
  repeat (apply elem_of_cons in H as [->|H]; [reflexivity|]).
  apply elem_of_nil in H. contradiction.
Qed.

Lemma app_empty_r (s : string) : s +:+ "" = s.
Proof.
  induction s as [|x s IH]; [reflexivity|].
  change (String x (s +:+ "") = String x s). rewrite IH. reflexivity.
Qed.

(** X20: A stock code of the exchange, in either case, with or without the
    ".SA" suffix and with blanks around it, is resolved to the code in
    capitals for Fundamentus and Finnhub and to the code with ".SA" for
    Yahoo Finance. *)
Theorem stock_codes_are_resolved (original_ticker code suffix : string) :
  strip original_ticker = code +:+ suffix ->
  stock_code code = true ->
  suffix ∈ sa_suffixes ->
  let variants := _prepare_ticker_variants original_ticker in
  original variants = original_ticker /\
  base variants = upper code +:+ upper suffix /\
  fundamentus variants = upper code /\
  finnhub variants = upper code /\
  yfinance variants = upper code +:+ ".SA".
Proof.
  intros Hs Hc Hx. cbv zeta. unfold _prepare_ticker_variants.
  cbn [original base fundamentus finnhub yfinance].
  rewrite Hs, upper_app.
  destruct (stock_code_upper code Hc) as [Hp Hm].
  rewrite (replace_SA_pointless _ _ Hp), (upper_suffix _ Hx), app_empty_r.
  rewrite (endswith_pointless _ Hp), Hm. cbn [negb]. repeat split; reflexivity.
Qed.

Lemma stock_codes_are_resolved_witness :
  yfinance (_prepare_ticker_variants " petr4.sa ") = "PETR4.SA" /\
  fundamentus (_prepare_ticker_variants " petr4.sa ") = "PETR4".
Proof.
  destruct (stock_codes_are_resolved " petr4.sa " "petr4" ".sa")
    as (_ & _ & Hf & _ & Hy).
  - reflexivity.
  - reflexivity.
  - apply (bool_decide_eq_true_1 _). vm_compute. reflexivity.
  - split; [exact Hy|exact Hf].
Defined.

Lemma space_upper c : is_space (upper_char c) = is_space c.
Proof. destruct c as [[] [] [] [] [] [] [] []]; reflexivity. Qed.

Lemma upper_char_idem c : upper_char (upper_char c) = upper_char c.
Proof. destruct c as [[] [] [] [] [] [] [] []]; reflexivity. Qed.

Lemma upper_idem s : upper (upper s) = upper s.
Proof.
  induction s as [|x s IH]; [reflexivity|]. cbn [upper]. rewrite upper_char_idem, IH.
  reflexivity.
Qed.

Lemma lstrip_upper s : lstrip (upper s) = upper (lstrip s).
Proof.
  induction s as [|x s IH]; [reflexivity|]. cbn [upper lstrip]. rewrite space_upper.
  destruct (is_space x); [exact IH|reflexivity].
Qed.

Lemma rstrip_upper s : rstrip (upper s) = upper (rstrip s).
Proof.
  induction s as [|x s IH]; [reflexivity|]. cbn [upper rstrip]. rewrite IH, space_upper.
  destruct (rstrip s) as [|y r]; cbn [upper]; [|reflexivity].
  destruct (is_space x); reflexivity.
Qed.

Lemma strip_upper s : strip (upper s) = upper (strip s).
Proof. unfold strip. rewrite lstrip_upper, rstrip_upper. reflexivity. Qed.

Lemma rstrip_idem s : rstrip (rstrip s) = rstrip s.
Proof.
  induction s as [|x s IH]; [reflexivity|]. cbn [rstrip].
  destruct (rstrip s) as [|y r] eqn:E.
  - destruct (is_space x) eqn:Ex; [reflexivity|]. cbn [rstrip]. rewrite Ex. reflexivity.
  - cbn [rstrip]. cbn [rstrip] in IH. rewrite IH. reflexivity.
Qed.

Lemma lstrip_head s :
  lstrip s = "" \/ exists c r, lstrip s = String c r /\ is_space c = false.
Proof.
  induction s as [|x s IH]; [left; reflexivity|]. cbn [lstrip].
  destruct (is_space x) eqn:E; [exact IH|]. right. eauto.
Qed.

Lemma rstrip_head c r :
  is_space c = false -> exists r', rstrip (String c r) = String c r'.
Proof.
  intros H. cbn [rstrip]. destruct (rstrip r); [rewrite H|]; eauto.
Qed.

Lemma strip_idem s : strip (strip s) = strip s.
Proof.
  unfold strip. destruct (lstrip_head s) as [->|(c & r & -> & Hc)]; [reflexivity|].
  destruct (rstrip_head c r Hc) as [r' E]. rewrite E.
  cbn [lstrip]. rewrite Hc, <- E. apply rstrip_idem.
Qed.

(** X21: Preparing a ticker is idempotent: the base ticker, prepared again,
    gives the same base, Fundamentus, Finnhub and Yahoo Finance tickers. *)
Theorem prepared_ticker_is_stable (original_ticker : string) :
  let variants := _prepare_ticker_variants original_ticker in
  _prepare_ticker_variants (base variants) =
    TickerVariants (base variants) (base variants) (yfinance variants)
      (fundamentus variants) (finnhub variants).
Proof.
  cbv zeta. unfold _prepare_ticker_variants. cbn [base yfinance fundamentus finnhub].
  rewrite strip_upper, upper_idem, strip_idem. reflexivity.
Qed.

End TickerProofs.

(** The analysis of one stock. *)
Section AnalysisProofs.
Local Open Scope string_scope.
Import Soup PyStr.


End AnalysisProofs.
